(** * The loan workflow of the local-library catalog

    A shallow embedding of [catalog/views.py]: the landing view [index],
    the two librarian views [renew_book_librarian] and
    [return_book_librarian], and the two loan listings with their query
    sets and their pages.

    A view is a computation over the persisted state (the database tables
    and the session object of the request) that returns a response or
    raises.  The framework pieces the views call ([get_object_or_404],
    [Model.save], the [permission_required] and [login_required]
    decorators, [QuerySet.filter]/[order_by]/[count]) are written out with
    the behaviour the views rely on. *)

From Stdlib Require Import ZArith.
From stdpp Require Import base option list sorting strings gmap.

Open Scope Z_scope.

(** ** Dates *)

(** A [datetime.date] is its proleptic Gregorian ordinal ([date.toordinal()]);
    [date.min] has ordinal 1 and [date.max] (9999-12-31) has 3652059. *)
Definition date := Z.
Definition MINORDINAL : Z := 1.
Definition MAXORDINAL : Z := 3652059.

(** [datetime.timedelta(weeks=w)], in days. *)
Definition timedelta_weeks (w : Z) : Z := 7 * w.

(** ** Data model *)

Definition UUID := N.

(** Modelled from the spec: the status enum of [BookInstance]
    ([catalog/models.py] is absent).  The views write the stored code
    ["a"] for [Available] and filter on ["o"] for [OnLoan]. *)
Inductive LoanStatus := Maintenance | OnLoan | Available | Reserved.

Global Instance LoanStatus_eq_dec : EqDecision LoanStatus.
Proof. solve_decision. Defined.

(** Modelled from the spec: the fields of a [BookInstance] row
    ([catalog/models.py] is absent).  The primary key is the key of the
    table; [book] and [borrower] are foreign keys. *)
Record BookInstance := {
  book : N;
  imprint : string;
  due_back : option date;
  status : LoanStatus;
  borrower : option N
}.

Global Instance BookInstance_eq_dec : EqDecision BookInstance.
Proof. solve_decision. Defined.

Definition set_due_back (v : option date) (b : BookInstance) : BookInstance :=
  {| book := book b; imprint := imprint b; due_back := v;
     status := status b; borrower := borrower b |}.

Definition set_borrower (v : option N) (b : BookInstance) : BookInstance :=
  {| book := book b; imprint := imprint b; due_back := due_back b;
     status := status b; borrower := v |}.

Definition set_status (v : LoanStatus) (b : BookInstance) : BookInstance :=
  {| book := book b; imprint := imprint b; due_back := due_back b;
     status := v; borrower := borrower b |}.

(** Modelled from the spec: reference data ([catalog/models.py] is absent).
    The views read a book's title and count authors and genres; the author
    fields are the ones [AuthorUpdate.fields] lists. *)
Record Book := { title : string }.

Record Author := {
  first_name : string;
  last_name : string;
  date_of_birth : option date;
  date_of_death : option date
}.

Record Genre := { name : string }.

Record Database := {
  Book_objects : gmap N Book;
  BookInstance_objects : gmap UUID BookInstance;
  Author_objects : gmap N Author;
  Genre_objects : gmap N Genre
}.

Definition set_BookInstance_objects
    (t : gmap UUID BookInstance) (db : Database) : Database :=
  {| Book_objects := Book_objects db; BookInstance_objects := t;
     Author_objects := Author_objects db; Genre_objects := Genre_objects db |}.

(** The persisted state a request runs against: the tables, and the session
    object the framework hands to the view as [request.session]. *)
Record World := {
  database : Database;
  session : gmap string Z
}.

Definition set_database (db : Database) (w : World) : World :=
  {| database := db; session := session w |}.

Definition set_session (s : gmap string Z) (w : World) : World :=
  {| database := database w; session := s |}.

(** [request.user]: the primary key of the account and the permissions the
    authentication backend grants it ([user.get_all_permissions()]). *)
Record User := {
  user_pk : N;
  all_permissions : gset string
}.

Definition has_perm (u : User) (perm : string) : bool :=
  bool_decide (perm ∈ all_permissions u).

(** The request as the views read it.  [user] is [None] for the anonymous
    user.  The views hand [request.POST] to a form class unread, so they are
    parametric in its type. *)
Record HttpRequest (QueryDict : Type) := {
  method : string;
  POST : QueryDict;
  user : option User
}.
Arguments method {QueryDict} _.
Arguments POST {QueryDict} _.
Arguments user {QueryDict} _.

(** ** Responses *)

(** [reverse(viewname)]: a URL is named by its route. *)
Inductive URL := reverse (viewname : string).

Inductive HttpResponse (Context : Type) :=
  | HttpResponseRedirect (url : URL)
  | render (template_name : string) (context : Context)
  | redirect_to_login.
Arguments HttpResponseRedirect {Context} url.
Arguments render {Context} template_name context.
Arguments redirect_to_login {Context}.

(** ** The view monad: state passing with exceptions *)

Inductive Exception := Http404 | OverflowError | KeyError.

Inductive Outcome (A : Type) :=
  | Return (a : A)
  | Raise (e : Exception).
Arguments Return {A} a.
Arguments Raise {A} e.

Definition View (A : Type) : Type := World → Outcome A * World.

Global Instance View_ret : MRet View := λ A a w, (Return a, w).

Global Instance View_bind : MBind View := λ A B f m w,
  match m w with
  | (Return a, w') => f a w'
  | (Raise e, w') => (Raise e, w')
  end.

Definition raise {A} (e : Exception) : View A := λ w, (Raise e, w).

Definition get_world : View World := λ w, (Return w, w).

Definition put_world (w' : World) : View unit := λ _, (Return tt, w').

(** ** Framework operations the views call *)

(** [date + timedelta]: raises [OverflowError] outside [date.min .. date.max]. *)
Definition date_add (d : date) (days : Z) : View date :=
  if bool_decide (MINORDINAL ≤ d + days ≤ MAXORDINAL)
  then mret (d + days)
  else raise OverflowError.

(** [get_object_or_404(BookInstance, pk=pk)]. *)
Definition get_object_or_404 (pk : UUID) : View BookInstance :=
  w ← get_world;
  match BookInstance_objects (database w) !! pk with
  | Some book_instance => mret book_instance
  | None => raise Http404
  end.

(** [book_instance.save()]: writes the row under the primary key the object
    was fetched by. *)
Definition save (pk : UUID) (book_instance : BookInstance) : View unit :=
  w ← get_world;
  put_world
    (set_database
       (set_BookInstance_objects
          (<[pk := book_instance]> (BookInstance_objects (database w)))
          (database w))
       w).

(** ** Forms *)

(** A form instance after construction: bound to submitted data or not, the
    [initial] values offered, and, for a bound form, what validation found. *)
Record Form (A : Type) := {
  is_bound : bool;
  initial : option A;
  errors : list string;
  cleaned_data : option A
}.
Arguments is_bound {A} _.
Arguments initial {A} _.
Arguments errors {A} _.
Arguments cleaned_data {A} _.

(** [Form(data)]: a bound form, validated by the form class's cleaning
    function. *)
Definition bound_form {QueryDict A} (full_clean : QueryDict → list string + A)
    (data : QueryDict) : Form A :=
  match full_clean data with
  | inl errs => {| is_bound := true; initial := None;
                   errors := errs; cleaned_data := None |}
  | inr a => {| is_bound := true; initial := None;
                errors := []; cleaned_data := Some a |}
  end.

(** [Form(initial=...)] and [Form()]: an unbound form. *)
Definition unbound_form {A} (init : option A) : Form A :=
  {| is_bound := false; initial := init; errors := []; cleaned_data := None |}.

(** [form.is_valid()]: bound, and validation found no error. *)
Definition is_valid {A} (form : Form A) : bool :=
  is_bound form && bool_decide (errors form = []).

(** [form.cleaned_data[field]] for the one field of the form: [KeyError]
    when validation stored no value. *)
Definition cleaned {A} (form : Form A) : View A :=
  match cleaned_data form with
  | Some a => mret a
  | None => raise KeyError
  end.

(** The context both librarian views render. *)
Record LoanContext (A : Type) := {
  form : Form A;
  book_instance : BookInstance
}.
Arguments form {A} _.
Arguments book_instance {A} _.

(** ** Decorators *)

(** [@permission_required(perm)]: the view runs for a user who holds the
    permission; anyone else is sent to the login page. *)
Definition permission_required {QueryDict C} (perm : string)
    (view : HttpRequest QueryDict → View (HttpResponse C))
    (request : HttpRequest QueryDict) : View (HttpResponse C) :=
  match user request with
  | Some u => if has_perm u perm then view request else mret redirect_to_login
  | None => mret redirect_to_login
  end.

(** [@login_required]. *)
Definition login_required {QueryDict C}
    (view : HttpRequest QueryDict → View (HttpResponse C))
    (request : HttpRequest QueryDict) : View (HttpResponse C) :=
  match user request with
  | Some _ => view request
  | None => mret redirect_to_login
  end.

(** ** The librarian views *)

Section LibrarianViews.
Context {QueryDict : Type}.

(** [datetime.date.today()]. *)
Variable today : date.

(** The cleaning functions of the two form classes of [catalog/forms.py],
    which is absent: errors, or the cleaned value.  The renewal form cleans
    ["due_back"]; the return view never reads the cleaned data. *)
Variable RenewBookModelForm : QueryDict → list string + date.
Variable ReturnBookModelForm : QueryDict → list string + unit.

Definition renew_book_librarian_view (pk : UUID)
    (request : HttpRequest QueryDict)
    : View (HttpResponse (LoanContext date)) :=
  book_instance ← get_object_or_404 pk;
  let show form :=
    mret (render "catalog/book_renew_librarian.html"
            {| form := form; book_instance := book_instance |}) in
  if String.eqb (method request) "POST" then
    let form := bound_form RenewBookModelForm (POST request) in
    if is_valid form then
      due ← cleaned form;
      let book_instance := set_due_back (Some due) book_instance in
      save pk book_instance;;
      mret (HttpResponseRedirect (reverse "all-borrowed"))
    else show form
  else
    proposed_renewal_date ← date_add today (timedelta_weeks 3);
    show (unbound_form (Some proposed_renewal_date)).

Definition renew_book_librarian (request : HttpRequest QueryDict)
    (pk : UUID) : View (HttpResponse (LoanContext date)) :=
  permission_required "catalog.can_mark_returned"
    (renew_book_librarian_view pk) request.

Definition return_book_librarian_view (pk : UUID)
    (request : HttpRequest QueryDict)
    : View (HttpResponse (LoanContext unit)) :=
  book_instance ← get_object_or_404 pk;
  if String.eqb (method request) "POST" then
    let form := bound_form ReturnBookModelForm (POST request) in
    (if is_valid form then
       let book_instance := set_due_back None book_instance in
       let book_instance := set_borrower None book_instance in
       let book_instance := set_status Available book_instance in
       save pk book_instance
     else mret tt);;
    mret (HttpResponseRedirect (reverse "all-borrowed"))
  else
    let form := unbound_form None in
    mret (render "catalog/book_return_librarian.html"
            {| form := form; book_instance := book_instance |}).

Definition return_book_librarian (request : HttpRequest QueryDict)
    (pk : UUID) : View (HttpResponse (LoanContext unit)) :=
  permission_required "catalog.can_mark_returned"
    (return_book_librarian_view pk) request.

End LibrarianViews.

(** Modelled from the spec: the renewal window check of [RenewBookModelForm]
    ([catalog/forms.py] is absent).  The form binding layer supplies the
    proposed due date; it must satisfy
    [today < proposed_due_date <= today + 4 weeks]. *)
Definition clean_due_back (today : date) (proposed_due_date : date)
    : list string + date :=
  if bool_decide (proposed_due_date ≤ today) then
    inl ["date in past"]
  else if bool_decide (today + timedelta_weeks 4 < proposed_due_date) then
    inl ["date too far in future"]
  else inr proposed_due_date.

(** ** The landing view *)

(** [request.session.get(key, default)] and [request.session[key] = value]. *)
Definition session_get (key : string) (dflt : Z) : View Z :=
  w ← get_world; mret (default dflt (session w !! key)).

Definition session_set (key : string) (value : Z) : View unit :=
  w ← get_world; put_world (set_session (<[key := value]> (session w)) w).

(** [QuerySet.count()] over a table. *)
Definition count {K} `{Countable K} {V} (objects : gmap K V) : Z :=
  Z.of_nat (size objects).

(** [title__icontains]: containment up to the case of ASCII letters. *)
Definition lower_ascii (c : Ascii.ascii) : Ascii.ascii :=
  let n := Ascii.N_of_ascii c in
  if ((65 <=? n) && (n <=? 90))%N then Ascii.ascii_of_N (n + 32) else c.

Fixpoint lower (s : string) : string :=
  match s with
  | EmptyString => EmptyString
  | String c s' => String (lower_ascii c) (lower s')
  end.

Definition icontains (value pattern : string) : bool :=
  match String.index 0 (lower pattern) (lower value) with
  | Some _ => true
  | None => false
  end.

Record IndexContext := {
  num_books : Z;
  num_books_el : Z;
  num_instances : Z;
  num_instances_available : Z;
  num_authors : Z;
  num_genres : Z;
  num_visits : Z
}.

Definition index_view {QueryDict} (request : HttpRequest QueryDict)
    : View (HttpResponse IndexContext) :=
  visits ← session_get "num_visits" 0;
  let num_visits := visits + 1 in
  session_set "num_visits" num_visits;;
  w ← get_world;
  let db := database w in
  let num_books := count (Book_objects db) in
  let num_instances := count (BookInstance_objects db) in
  let num_books_el :=
    count (filter (λ kv, icontains (title kv.2) "el " = true) (Book_objects db)) in
  let num_instances_available :=
    count (filter (λ kv, status kv.2 = Available) (BookInstance_objects db)) in
  let num_authors := count (Author_objects db) in
  let num_genres := count (Genre_objects db) in
  let context :=
    {| num_books := num_books;
       num_books_el := num_books_el;
       num_instances := num_instances;
       num_instances_available := num_instances_available;
       num_authors := num_authors;
       num_genres := num_genres;
       num_visits := num_visits |} in
  mret (render "index.html" context).

Definition index {QueryDict} (request : HttpRequest QueryDict)
    : View (HttpResponse IndexContext) :=
  login_required index_view request.

(** ** The loan listings *)

(** [order_by("due_back")]: ascending, a row without a due date before every
    dated one (the order of the default database backend). *)
Definition due_back_le (x y : UUID * BookInstance) : Prop :=
  match due_back x.2, due_back y.2 with
  | None, _ => True
  | Some _, None => False
  | Some d1, Some d2 => d1 ≤ d2
  end.

Global Instance due_back_le_dec x y : Decision (due_back_le x y).
Proof.
  unfold due_back_le.
  destruct (due_back x.2), (due_back y.2); apply _.
Defined.

Definition order_by_due_back
    (rows : list (UUID * BookInstance)) : list (UUID * BookInstance) :=
  merge_sort due_back_le rows.

(** [BookInstance.objects]: the rows of the table with their keys. *)
Definition BookInstance_all (db : Database) : list (UUID * BookInstance) :=
  map_to_list (BookInstance_objects db).

Definition LoanedBooksListView_get_queryset (db : Database)
    : list (UUID * BookInstance) :=
  order_by_due_back
    (filter (λ kv, status kv.2 = OnLoan) (BookInstance_all db)).

Definition LoanedBooksByUserListView_get_queryset (db : Database)
    (request_user : User) : list (UUID * BookInstance) :=
  order_by_due_back
    (filter (λ kv, status kv.2 = OnLoan)
       (filter (λ kv, borrower kv.2 = Some (user_pk request_user))
          (BookInstance_all db))).

(** ** Vocabulary of the statements *)

(** The caller holds the capability both librarian views are gated on. *)
Definition can_mark_returned {QueryDict} (request : HttpRequest QueryDict)
    : bool :=
  match user request with
  | Some u => has_perm u "catalog.can_mark_returned"
  | None => false
  end.

(** [(status == OnLoan) == (due_back != null and borrower != null)]. *)
Definition loan_invariant (b : BookInstance) : Prop :=
  bool_decide (status b = OnLoan)
  = bool_decide (due_back b ≠ None) && bool_decide (borrower b ≠ None).

(** The row stored under a key. *)
Definition stored (w : World) (pk : UUID) : option BookInstance :=
  BookInstance_objects (database w) !! pk.

(** The state after the row under [pk] has been replaced. *)
Definition with_row (pk : UUID) (b : BookInstance) (w : World) : World :=
  set_database
    (set_BookInstance_objects
       (<[pk := b]> (BookInstance_objects (database w))) (database w)) w.

(** The instance a response hands back to its caller, if any: the one in a
    rendered context. *)
Definition returned_instance {A}
    (o : Outcome (HttpResponse (LoanContext A))) : option BookInstance :=
  match o with
  | Return (render _ context) => Some (book_instance context)
  | _ => None
  end.

(** A renewal fails with a validation error: the form is shown again with
    the error and nothing is written. *)
Definition fails_with_ValidationError (reason : string) (b : BookInstance)
    (w : World) (result : Outcome (HttpResponse (LoanContext date)) * World)
    : Prop :=
  result
  = (Return (render "catalog/book_renew_librarian.html"
               {| form := {| is_bound := true; initial := None;
                             errors := [reason]; cleaned_data := None |};
                  book_instance := b |}), w).

(** The row a return leaves behind. *)
Definition returned (b : BookInstance) : BookInstance :=
  set_status Available (set_borrower None (set_due_back None b)).

(** ** A small library for the examples *)

(** Ordinals of 2024-01-01, 2024-01-05, 2024-01-10 and 2024-01-20. *)
Definition jan_01 : date := 738886.
Definition jan_05 : date := 738890.
Definition jan_10 : date := 738895.
Definition jan_20 : date := 738905.

Definition librarian : User :=
  {| user_pk := 9; all_permissions := {["catalog.can_mark_returned"]} |}.

(** A copy on loan to user 1, due 2024-01-10. *)
Definition I1 : BookInstance :=
  {| book := 1; imprint := "Emece, 1949"; due_back := Some jan_10;
     status := OnLoan; borrower := Some 1%N |}.

(** A copy reserved for user 1: no due date yet. *)
Definition I2 : BookInstance :=
  {| book := 1; imprint := "Emece, 1949"; due_back := None;
     status := Reserved; borrower := Some 1%N |}.

(** A library holding one copy, under key 1, and a fresh session. *)
Definition library (copy : BookInstance) : World :=
  {| database :=
       {| Book_objects := {[ 1%N := {| title := "El Aleph" |} ]};
          BookInstance_objects := {[ 1%N := copy ]};
          Author_objects := ∅;
          Genre_objects := ∅ |};
     session := ∅ |}.

(** A copy on loan to user 2, due 2024-01-05, and a copy on the shelf. *)
Definition I3 : BookInstance :=
  {| book := 1; imprint := "Alianza, 1971"; due_back := Some jan_05;
     status := OnLoan; borrower := Some 2%N |}.

Definition I4 : BookInstance :=
  {| book := 1; imprint := "Alianza, 1971"; due_back := None;
     status := Available; borrower := None |}.

(** The four copies together. *)
Definition shelf : Database :=
  {| Book_objects := {[ 1%N := {| title := "El Aleph" |} ]};
     BookInstance_objects :=
       {[ 1%N := I1; 2%N := I2; 3%N := I3; 4%N := I4 ]};
     Author_objects := ∅;
     Genre_objects := ∅ |}.

Definition reader (pk : N) : User :=
  {| user_pk := pk; all_permissions := ∅ |}.

(** A librarian's request; the submitted data is the proposed due date for a
    renewal and the confirmation for a return. *)
Definition librarian_request {QueryDict} (verb : string) (data : QueryDict)
    : HttpRequest QueryDict :=
  {| method := verb; POST := data; user := Some librarian |}.

(** A return form that asks for nothing but a confirmation. *)
Definition confirmation_form (confirmed : bool) : list string + unit :=
  if confirmed then inr tt else inl ["This field is required."].

(** ** Vocabulary for frames and repeated requests *)

(** Two states agree on everything but the content of the row under one key:
    the session, the other tables, the set of keys and every other row. *)
Definition same_except_row (pk : UUID) (w w' : World) : Prop :=
  session w' = session w
  ∧ Book_objects (database w') = Book_objects (database w)
  ∧ Author_objects (database w') = Author_objects (database w)
  ∧ Genre_objects (database w') = Genre_objects (database w)
  ∧ dom (BookInstance_objects (database w'))
    = dom (BookInstance_objects (database w))
  ∧ ∀ pk', pk' ≠ pk → stored w' pk' = stored w pk'.

(** The state after [n] requests for the landing page in a row. *)
Fixpoint visits {QueryDict} (n : nat) (request : HttpRequest QueryDict)
    (w : World) : World :=
  match n with
  | O => w
  | S n' => (index request (visits n' request w)).2
  end.

(** ** The paginated loan listings *)

(** [paginate_by = 10], the page size of the list views. *)
Definition paginate_by : nat := 10.

(** The page asked for: [self.kwargs.get("page") or
    request.GET.get("page")], as [paginate_queryset] reads it.  A missing or
    empty value stands for page 1; [page_int n] is a value [int()] converts
    to [n]; ["last"] is the last page; anything else is refused. *)
Inductive PageParam :=
  | page_missing
  | page_int (n : Z)
  | page_last
  | page_invalid.

(** [Paginator.num_pages] with no orphans and an empty first page allowed:
    [ceil(max(1, count) / per_page)]. *)
Definition num_pages {A} (per_page : nat) (object_list : list A) : Z :=
  let hits := Z.max 1 (Z.of_nat (length object_list)) in
  (hits + Z.of_nat per_page - 1) `div` Z.of_nat per_page.

(** [object_list[bottom:top]] for [0 <= bottom]. *)
Definition slice {A} (object_list : list A) (bottom top : nat) : list A :=
  take (top - bottom) (drop bottom object_list).

(** [Paginator.page(number)]: [None] stands for [EmptyPage]. *)
Definition Paginator_page {A} (per_page : nat) (object_list : list A)
    (number : Z) : option (list A) :=
  if bool_decide (number < 1) then None
  else if bool_decide (number > num_pages per_page object_list)
          && negb (bool_decide (number = 1)) then None
  else
    let count := length object_list in
    let bottom := (Z.to_nat (number - 1) * per_page)%nat in
    let top := (bottom + per_page)%nat in
    let top := if bool_decide (count ≤ top)%nat then count else top in
    Some (slice object_list bottom top).

(** What a list view hands to its template. *)
Record ListContext (A : Type) := {
  object_list : list A;
  is_paginated : bool;
  page_number : Z;
  paginator_num_pages : Z;
  paginator_count : Z
}.
Arguments object_list {A} _.
Arguments is_paginated {A} _.
Arguments page_number {A} _.
Arguments paginator_num_pages {A} _.
Arguments paginator_count {A} _.

(** [MultipleObjectMixin.paginate_queryset]: [None] stands for [Http404]. *)
Definition paginate_queryset {A} (queryset : list A) (page_size : nat)
    (page : PageParam) : option (ListContext A) :=
  let last := num_pages page_size queryset in
  number ← match page with
           | page_missing => Some 1
           | page_int n => Some n
           | page_last => Some last
           | page_invalid => None
           end;
  objects ← Paginator_page page_size queryset number;
  Some {| object_list := objects;
          is_paginated := bool_decide (1 < number) || bool_decide (number < last);
          page_number := number;
          paginator_num_pages := last;
          paginator_count := Z.of_nat (length queryset) |}.

(** The answers of a class-based view, exceptions included as the responses
    the framework turns them into: [Http404] into [HttpResponseNotFound] and
    [PermissionDenied] into [HttpResponseForbidden]. *)
Inductive ClassResponse (Context : Type) :=
  | TemplateResponse (template_name : string) (context : Context)
  | login_redirect
  | HttpResponseForbidden
  | HttpResponseNotFound
  | HttpResponseNotAllowed (permitted_methods : list string)
  | options_response (permitted_methods : list string).
Arguments TemplateResponse {Context} template_name context.
Arguments login_redirect {Context}.
Arguments HttpResponseForbidden {Context}.
Arguments HttpResponseNotFound {Context}.
Arguments HttpResponseNotAllowed {Context} permitted_methods.
Arguments options_response {Context} permitted_methods.

(** [View.dispatch] of a [ListView]: the class defines [get], which also
    serves HEAD, and inherits [options]; every other method is not
    allowed. *)
Definition ListView_dispatch {QueryDict A} (template_name : string)
    (queryset : list A) (request : HttpRequest QueryDict) (page : PageParam)
    : ClassResponse (ListContext A) :=
  let verb := lower (method request) in
  if bool_decide (verb = "get" ∨ verb = "head") then
    match paginate_queryset queryset paginate_by page with
    | Some context => TemplateResponse template_name context
    | None => HttpResponseNotFound
    end
  else if bool_decide (verb = "options") then
    options_response ["GET"; "HEAD"; "OPTIONS"]
  else HttpResponseNotAllowed ["GET"; "HEAD"; "OPTIONS"].

(** [PermissionRequiredMixin.dispatch]: without the permission, a logged-in
    user is refused and an anonymous one is sent to the login page. *)
Definition PermissionRequiredMixin {QueryDict C} (perm : string)
    (request : HttpRequest QueryDict) (view : ClassResponse C)
    : ClassResponse C :=
  match user request with
  | Some u => if has_perm u perm then view else HttpResponseForbidden
  | None => login_redirect
  end.

Definition LoanedBooksListView {QueryDict} (request : HttpRequest QueryDict)
    (page : PageParam) (db : Database)
    : ClassResponse (ListContext (UUID * BookInstance)) :=
  PermissionRequiredMixin "catalog.can_mark_returned" request
    (ListView_dispatch "catalog/bookinstance_list_borrowed_all.html"
       (LoanedBooksListView_get_queryset db) request page).

(** [LoginRequiredMixin.dispatch] comes first; the query set is built from
    the logged-in user. *)
Definition LoanedBooksByUserListView {QueryDict}
    (request : HttpRequest QueryDict) (page : PageParam) (db : Database)
    : ClassResponse (ListContext (UUID * BookInstance)) :=
  match user request with
  | Some u =>
      ListView_dispatch "catalog/bookinstance_list_borrowed_user.html"
        (LoanedBooksByUserListView_get_queryset db u) request page
  | None => login_redirect
  end.

(** A request the list views serve: GET or HEAD, in any letter case. *)
Definition is_read {QueryDict} (request : HttpRequest QueryDict) : Prop :=
  lower (method request) = "get" ∨ lower (method request) = "head".

(** * Running the views *)

Ltac run_view :=
  unfold renew_book_librarian, return_book_librarian, index,
    renew_book_librarian_view, return_book_librarian_view, index_view,
    permission_required, login_required, can_mark_returned,
    get_object_or_404, save, cleaned, date_add, session_get, session_set,
    raise, get_world, put_world, stored, with_row,
    mbind, View_bind, mret, View_ret in *.

Section Running.
Context {QueryDict : Type}.
Variable today : date.
Variable RenewBookModelForm : QueryDict → list string + date.
Variable ReturnBookModelForm : QueryDict → list string + unit.
Implicit Types (request : HttpRequest QueryDict) (w : World) (pk : UUID).
Implicit Types (b : BookInstance) (d : date).

Lemma is_valid_bound_inr {A} (F : QueryDict → list string + A) data a :
  F data = inr a → is_valid (bound_form F data) = true.
Proof. intros E. unfold is_valid, bound_form. by rewrite E. Qed.

Lemma is_valid_bound_inl {A} (F : QueryDict → list string + A) data errs :
  F data = inl errs → errs ≠ [] → is_valid (bound_form F data) = false.
Proof.
  intros E Hne. unfold is_valid, bound_form. rewrite E. simpl.
  by apply bool_decide_eq_false.
Qed.

Lemma gate_open C request (view : HttpRequest QueryDict → View (HttpResponse C)) :
  can_mark_returned request = true →
  permission_required "catalog.can_mark_returned" view request = view request.
Proof.
  unfold can_mark_returned, permission_required.
  destruct (user request) as [u|]; [|done]. by intros ->.
Qed.

Lemma renew_missing request pk w :
  can_mark_returned request = true →
  stored w pk = None →
  renew_book_librarian today RenewBookModelForm request pk w
  = (Raise Http404, w).
Proof.
  intros Hp Hs. unfold renew_book_librarian. rewrite gate_open by done.
  run_view. by rewrite Hs.
Qed.

Lemma return_missing request pk w :
  can_mark_returned request = true →
  stored w pk = None →
  return_book_librarian ReturnBookModelForm request pk w
  = (Raise Http404, w).
Proof.
  intros Hp Hs. unfold return_book_librarian. rewrite gate_open by done.
  run_view. by rewrite Hs.
Qed.

Lemma renew_post_valid request pk w b d :
  can_mark_returned request = true →
  method request = "POST" →
  stored w pk = Some b →
  RenewBookModelForm (POST request) = inr d →
  renew_book_librarian today RenewBookModelForm request pk w
  = (Return (HttpResponseRedirect (reverse "all-borrowed")),
     with_row pk (set_due_back (Some d) b) w).
Proof.
  intros Hp Hm Hs Hf. unfold renew_book_librarian. rewrite gate_open by done.
  run_view. rewrite Hs, Hm. simpl.
  rewrite (is_valid_bound_inr _ _ _ Hf).
  unfold bound_form. by rewrite Hf.
Qed.

Lemma renew_post_invalid request pk w b errs :
  can_mark_returned request = true →
  method request = "POST" →
  stored w pk = Some b →
  RenewBookModelForm (POST request) = inl errs →
  errs ≠ [] →
  renew_book_librarian today RenewBookModelForm request pk w
  = (Return (render "catalog/book_renew_librarian.html"
               {| form := {| is_bound := true; initial := None;
                             errors := errs; cleaned_data := None |};
                  book_instance := b |}), w).
Proof.
  intros Hp Hm Hs Hf Hne. unfold renew_book_librarian.
  rewrite gate_open by done.
  run_view. rewrite Hs, Hm. simpl.
  rewrite (is_valid_bound_inl _ _ _ Hf Hne).
  unfold bound_form. by rewrite Hf.
Qed.

Lemma renew_not_post request pk w b :
  can_mark_returned request = true →
  method request ≠ "POST" →
  stored w pk = Some b →
  MINORDINAL ≤ today + timedelta_weeks 3 ≤ MAXORDINAL →
  renew_book_librarian today RenewBookModelForm request pk w
  = (Return (render "catalog/book_renew_librarian.html"
               {| form := unbound_form (Some (today + timedelta_weeks 3));
                  book_instance := b |}), w).
Proof.
  intros Hp Hm Hs Hr. unfold renew_book_librarian. rewrite gate_open by done.
  run_view. rewrite Hs.
  apply String.eqb_neq in Hm. rewrite Hm.
  by rewrite bool_decide_eq_true_2.
Qed.

Lemma return_post_valid request pk w b :
  can_mark_returned request = true →
  method request = "POST" →
  stored w pk = Some b →
  is_valid (bound_form ReturnBookModelForm (POST request)) = true →
  return_book_librarian ReturnBookModelForm request pk w
  = (Return (HttpResponseRedirect (reverse "all-borrowed")),
     with_row pk
       (set_status Available (set_borrower None (set_due_back None b))) w).
Proof.
  intros Hp Hm Hs Hf. unfold return_book_librarian. rewrite gate_open by done.
  run_view. rewrite Hs, Hm. simpl. by rewrite Hf.
Qed.

Lemma return_post_invalid request pk w b :
  can_mark_returned request = true →
  method request = "POST" →
  stored w pk = Some b →
  is_valid (bound_form ReturnBookModelForm (POST request)) = false →
  return_book_librarian ReturnBookModelForm request pk w
  = (Return (HttpResponseRedirect (reverse "all-borrowed")), w).
Proof.
  intros Hp Hm Hs Hf. unfold return_book_librarian. rewrite gate_open by done.
  run_view. rewrite Hs, Hm. simpl. by rewrite Hf.
Qed.

Lemma stored_with_row pk b w : stored (with_row pk b w) pk = Some b.
Proof. unfold stored, with_row. simpl. apply lookup_insert_eq. Qed.

Lemma stored_with_row_ne pk pk' b w :
  pk ≠ pk' → stored (with_row pk b w) pk' = stored w pk'.
Proof. intros Hne. unfold stored, with_row. simpl. by apply lookup_insert_ne. Qed.

Lemma with_row_twice pk b b' w :
  with_row pk b' (with_row pk b w) = with_row pk b' w.
Proof.
  unfold with_row, set_database, set_BookInstance_objects. simpl.
  by rewrite insert_insert_eq.
Qed.

End Running.

(** The scenario of the spec: on 2024-01-05, I1 is renewed to 2024-01-20
    and then returned. *)
Example scenario_renew_then_return :
  let renewed :=
    renew_book_librarian jan_05 (clean_due_back jan_05)
      (librarian_request "POST" jan_20) 1%N (library I1) in
  let back :=
    return_book_librarian confirmation_form (librarian_request "POST" true)
      1%N renewed.2 in
  stored renewed.2 1%N
  = Some {| book := 1; imprint := "Emece, 1949"; due_back := Some jan_20;
            status := OnLoan; borrower := Some 1%N |}
  ∧ stored back.2 1%N
    = Some {| book := 1; imprint := "Emece, 1949"; due_back := None;
              status := Available; borrower := None |}.
Proof. split; reflexivity. Qed.

(** A reader without the capability is sent to the login page and nothing
    is written. *)
Example scenario_reader_turned_away :
  renew_book_librarian jan_05 (clean_due_back jan_05)
    {| method := "POST"; POST := jan_20; user := Some (reader 1) |}
    1%N (library I1)
  = (Return redirect_to_login, library I1).
Proof. reflexivity. Qed.

(** * The loan workflow *)

(** C9. For a key that identifies no BookInstance, both Renew and Return
    fail with NotFound (they raise [Http404]) and leave the persisted state
    as it was, whatever the request method or the submitted data. *)
Theorem missing_key_is_not_found {QueryDict} (today : date)
    (RenewBookModelForm : QueryDict → list string + date)
    (ReturnBookModelForm : QueryDict → list string + unit)
    (request : HttpRequest QueryDict) (pk : UUID) (w : World) :
  can_mark_returned request = true →
  stored w pk = None →
  renew_book_librarian today RenewBookModelForm request pk w
  = (Raise Http404, w)
  ∧ return_book_librarian ReturnBookModelForm request pk w
    = (Raise Http404, w).
Proof.
  intros Hp Hs. split.
  - by apply renew_missing.
  - by apply return_missing.
Qed.

Lemma missing_key_is_not_found_witness :
  stored (library I1) 2%N = None
  ∧ renew_book_librarian jan_05 (clean_due_back jan_05)
      (librarian_request "POST" jan_20) 2%N (library I1)
    = (Raise Http404, library I1)
  ∧ return_book_librarian (λ _ : date, inr tt)
      (librarian_request "POST" jan_20) 2%N (library I1)
    = (Raise Http404, library I1).
Proof.
  split; [reflexivity|].
  apply (missing_key_is_not_found jan_05 (clean_due_back jan_05)
           (λ _ : date, inr tt) (librarian_request "POST" jan_20) 2%N
           (library I1)); reflexivity.
Defined.

(** C10. On a request that is not a POST, Renew offers the form with the
    default proposal [today + 3 weeks], exactly 21 days after today, for
    every today whose proposal is a date of the calendar; nothing is
    written. *)
Theorem renew_default_proposal {QueryDict} (today : date)
    (RenewBookModelForm : QueryDict → list string + date)
    (request : HttpRequest QueryDict) (pk : UUID) (w : World)
    (b : BookInstance) :
  can_mark_returned request = true →
  method request ≠ "POST" →
  stored w pk = Some b →
  MINORDINAL ≤ today + 21 ≤ MAXORDINAL →
  ∃ form,
    renew_book_librarian today RenewBookModelForm request pk w
    = (Return (render "catalog/book_renew_librarian.html"
                 {| form := form; book_instance := b |}), w)
    ∧ is_bound form = false
    ∧ initial form = Some (today + 21).
Proof.
  intros Hp Hm Hs Hr.
  exists (unbound_form (Some (today + timedelta_weeks 3))).
  split; [|done].
  by apply renew_not_post.
Qed.

Lemma renew_default_proposal_witness :
  ∃ form,
    renew_book_librarian jan_05 (clean_due_back jan_05)
      (librarian_request "GET" jan_20) 1%N (library I1)
    = (Return (render "catalog/book_renew_librarian.html"
                 {| form := form; book_instance := I1 |}), library I1)
    ∧ is_bound form = false
    ∧ initial form = Some (jan_05 + 21).
Proof.
  apply (renew_default_proposal jan_05 (clean_due_back jan_05)
           (librarian_request "GET" jan_20) 1%N (library I1) I1).
  - reflexivity.
  - discriminate.
  - reflexivity.
  - unfold MINORDINAL, MAXORDINAL, jan_05. lia.
Defined.

(** C2. With the renewal form of the spec, a Renew of an existing instance
    (on loan or not) fails with ValidationError("date in past") when the
    proposed date is today or earlier, fails with ValidationError("date too
    far in future") when it is later than today + 4 weeks, and succeeds in
    between; the boundary is inclusive: today + 28 days succeeds and
    today + 29 days fails. *)
Theorem renew_window (today : date) (request : HttpRequest date)
    (pk : UUID) (w : World) (b : BookInstance) :
  can_mark_returned request = true →
  method request = "POST" →
  stored w pk = Some b →
  status b = OnLoan →
  let proposed_due_date := POST request in
  let result :=
    renew_book_librarian today (clean_due_back today) request pk w in
  let success :=
    (Return (HttpResponseRedirect (reverse "all-borrowed")),
     with_row pk (set_due_back (Some proposed_due_date) b) w) in
  (proposed_due_date ≤ today →
     fails_with_ValidationError "date in past" b w result)
  ∧ (proposed_due_date > today + timedelta_weeks 4 →
     fails_with_ValidationError "date too far in future" b w result)
  ∧ (today < proposed_due_date ≤ today + timedelta_weeks 4 →
     result = success)
  ∧ (proposed_due_date = today + 28 → result = success)
  ∧ (proposed_due_date = today + 29 →
     fails_with_ValidationError "date too far in future" b w result).
Proof.
  intros Hp Hm Hs _ d result success.
  assert (Hpast : d ≤ today →
            fails_with_ValidationError "date in past" b w result).
  { intros Hd. apply renew_post_invalid; [done..| |done].
    unfold clean_due_back. by rewrite bool_decide_eq_true_2. }
  assert (Hfar : d > today + timedelta_weeks 4 →
            fails_with_ValidationError "date too far in future" b w result).
  { intros Hd. apply renew_post_invalid; [done..| |done].
    unfold clean_due_back, timedelta_weeks in *.
    rewrite bool_decide_eq_false_2 by lia.
    by rewrite bool_decide_eq_true_2 by lia. }
  assert (Hok : today < d ≤ today + timedelta_weeks 4 → result = success).
  { intros Hd. apply renew_post_valid; [done..|].
    unfold clean_due_back, timedelta_weeks in *.
    rewrite bool_decide_eq_false_2 by lia.
    by rewrite bool_decide_eq_false_2 by lia. }
  unfold timedelta_weeks in *.
  repeat split; [done..| |]; intros ->; [apply Hok|apply Hfar]; lia.
Qed.

Lemma renew_window_witness :
  renew_book_librarian jan_05 (clean_due_back jan_05)
    (librarian_request "POST" (jan_05 + 28)) 1%N (library I1)
  = (Return (HttpResponseRedirect (reverse "all-borrowed")),
     with_row 1%N (set_due_back (Some (jan_05 + 28)) I1) (library I1))
  ∧ fails_with_ValidationError "date too far in future" I1 (library I1)
      (renew_book_librarian jan_05 (clean_due_back jan_05)
         (librarian_request "POST" (jan_05 + 29)) 1%N (library I1))
  ∧ fails_with_ValidationError "date in past" I1 (library I1)
      (renew_book_librarian jan_05 (clean_due_back jan_05)
         (librarian_request "POST" jan_01) 1%N (library I1)).
Proof.
  split; [|split].
  - apply (renew_window jan_05 (librarian_request "POST" (jan_05 + 28)) 1%N
             (library I1) I1); reflexivity.
  - apply (renew_window jan_05 (librarian_request "POST" (jan_05 + 29)) 1%N
             (library I1) I1); reflexivity.
  - apply (renew_window jan_05 (librarian_request "POST" jan_01) 1%N
             (library I1) I1); try reflexivity.
    unfold jan_01, jan_05. simpl. lia.
Defined.

(** C3, as the code has it. A successful Renew of an existing instance (on
    loan or not) sets due_back to the validated date, leaves every other
    field, status and borrower among them, as it was, persists the row under
    its key and leaves every other row alone; it answers with a redirect to
    the listing of all borrowed copies, which carries no instance. *)
Theorem renew_success_effect {QueryDict} (today : date)
    (RenewBookModelForm : QueryDict → list string + date)
    (request : HttpRequest QueryDict) (pk : UUID) (w : World)
    (b : BookInstance) (proposed_due_date : date) :
  can_mark_returned request = true →
  method request = "POST" →
  stored w pk = Some b →
  status b = OnLoan →
  RenewBookModelForm (POST request) = inr proposed_due_date →
  ∃ response w' b',
    renew_book_librarian today RenewBookModelForm request pk w
    = (Return response, w')
    ∧ response = HttpResponseRedirect (reverse "all-borrowed")
    ∧ returned_instance (Return response) = None
    ∧ stored w' pk = Some b'
    ∧ due_back b' = Some proposed_due_date
    ∧ status b' = status b
    ∧ borrower b' = borrower b
    ∧ book b' = book b
    ∧ imprint b' = imprint b
    ∧ (∀ pk', pk ≠ pk' → stored w' pk' = stored w pk')
    ∧ session w' = session w.
Proof.
  intros Hp Hm Hs _ Hf.
  exists (HttpResponseRedirect (reverse "all-borrowed")),
    (with_row pk (set_due_back (Some proposed_due_date) b) w),
    (set_due_back (Some proposed_due_date) b).
  split; [by apply renew_post_valid|].
  repeat split.
  - apply stored_with_row.
  - intros pk' Hne. by apply stored_with_row_ne.
Qed.

Lemma renew_success_effect_witness :
  ∃ response w' b',
    renew_book_librarian jan_05 (clean_due_back jan_05)
      (librarian_request "POST" jan_20) 1%N (library I1)
    = (Return response, w')
    ∧ response = HttpResponseRedirect (reverse "all-borrowed")
    ∧ returned_instance (Return response) = None
    ∧ stored w' 1%N = Some b'
    ∧ due_back b' = Some jan_20
    ∧ status b' = status I1
    ∧ borrower b' = borrower I1
    ∧ book b' = book I1
    ∧ imprint b' = imprint I1
    ∧ (∀ pk', 1%N ≠ pk' → stored w' pk' = stored (library I1) pk')
    ∧ session w' = session (library I1).
Proof.
  apply (renew_success_effect jan_05 (clean_due_back jan_05)
           (librarian_request "POST" jan_20) 1%N (library I1) I1 jan_20);
    reflexivity.
Defined.

(** C3 as written fails: after the scenario's renewal of I1 the updated
    instance is persisted, but the response is a redirect and hands no
    instance back. *)
Lemma renew_returns_no_instance :
  let result :=
    renew_book_librarian jan_05 (clean_due_back jan_05)
      (librarian_request "POST" jan_20) 1%N (library I1) in
  status I1 = OnLoan
  ∧ stored result.2 1%N = Some (set_due_back (Some jan_20) I1)
  ∧ result.1 = Return (HttpResponseRedirect (reverse "all-borrowed"))
  ∧ returned_instance result.1 ≠ Some (set_due_back (Some jan_20) I1).
Proof. repeat split. discriminate. Qed.

(** C4. A Return of an existing instance succeeds whatever the prior status
    was, no status is tested: the row persisted under the key has status
    Available, no due date and no borrower, its other fields are kept, and
    the other rows and the session are left alone. *)
Theorem return_resets_any_instance {QueryDict}
    (ReturnBookModelForm : QueryDict → list string + unit)
    (request : HttpRequest QueryDict) (pk : UUID) (w : World)
    (b : BookInstance) :
  can_mark_returned request = true →
  method request = "POST" →
  is_valid (bound_form ReturnBookModelForm (POST request)) = true →
  stored w pk = Some b →
  ∃ w' b',
    return_book_librarian ReturnBookModelForm request pk w
    = (Return (HttpResponseRedirect (reverse "all-borrowed")), w')
    ∧ stored w' pk = Some b'
    ∧ status b' = Available
    ∧ due_back b' = None
    ∧ borrower b' = None
    ∧ book b' = book b
    ∧ imprint b' = imprint b
    ∧ (∀ pk', pk ≠ pk' → stored w' pk' = stored w pk')
    ∧ session w' = session w.
Proof.
  intros Hp Hm Hf Hs.
  exists (with_row pk (returned b) w), (returned b).
  split; [by apply return_post_valid|].
  repeat split.
  - apply stored_with_row.
  - intros pk' Hne. by apply stored_with_row_ne.
Qed.

Lemma return_resets_any_instance_witness :
  status I2 = Reserved
  ∧ ∃ w' b',
    return_book_librarian confirmation_form (librarian_request "POST" true)
      1%N (library I2)
    = (Return (HttpResponseRedirect (reverse "all-borrowed")), w')
    ∧ stored w' 1%N = Some b'
    ∧ status b' = Available
    ∧ due_back b' = None
    ∧ borrower b' = None
    ∧ book b' = book I2
    ∧ imprint b' = imprint I2
    ∧ (∀ pk', 1%N ≠ pk' → stored w' pk' = stored (library I2) pk')
    ∧ session w' = session (library I2).
Proof.
  split; [reflexivity|].
  apply (return_resets_any_instance confirmation_form
           (librarian_request "POST" true) 1%N (library I2) I2);
    reflexivity.
Defined.

(** C5. Return is idempotent: a second Return on the same key succeeds like
    the first and leaves the state the first one produced, in which the row
    is Available with no due date and no borrower. *)
Theorem return_idempotent {QueryDict}
    (ReturnBookModelForm : QueryDict → list string + unit)
    (first second : HttpRequest QueryDict) (pk : UUID) (w : World)
    (b : BookInstance) :
  can_mark_returned first = true →
  method first = "POST" →
  is_valid (bound_form ReturnBookModelForm (POST first)) = true →
  can_mark_returned second = true →
  method second = "POST" →
  is_valid (bound_form ReturnBookModelForm (POST second)) = true →
  stored w pk = Some b →
  let once := return_book_librarian ReturnBookModelForm first pk w in
  let twice := return_book_librarian ReturnBookModelForm second pk once.2 in
  once.1 = Return (HttpResponseRedirect (reverse "all-borrowed"))
  ∧ twice.1 = Return (HttpResponseRedirect (reverse "all-borrowed"))
  ∧ twice.2 = once.2
  ∧ ∃ b', stored twice.2 pk = Some b'
      ∧ status b' = Available ∧ due_back b' = None ∧ borrower b' = None.
Proof.
  intros Hp1 Hm1 Hf1 Hp2 Hm2 Hf2 Hs once twice.
  assert (E1 : once
    = (Return (HttpResponseRedirect (reverse "all-borrowed")),
       with_row pk (returned b) w)) by by apply return_post_valid.
  assert (E2 : twice
    = (Return (HttpResponseRedirect (reverse "all-borrowed")),
       with_row pk (returned (returned b)) (with_row pk (returned b) w))).
  { subst twice. rewrite E1. simpl.
    apply return_post_valid; [done|done|apply stored_with_row|done]. }
  rewrite with_row_twice in E2.
  rewrite E2, E1. simpl. repeat split.
  exists (returned b). split; [apply stored_with_row|done].
Qed.

Lemma return_idempotent_witness :
  let once :=
    return_book_librarian confirmation_form (librarian_request "POST" true)
      1%N (library I1) in
  let twice :=
    return_book_librarian confirmation_form (librarian_request "POST" true)
      1%N once.2 in
  once.1 = Return (HttpResponseRedirect (reverse "all-borrowed"))
  ∧ twice.1 = Return (HttpResponseRedirect (reverse "all-borrowed"))
  ∧ twice.2 = once.2
  ∧ ∃ b', stored twice.2 1%N = Some b'
      ∧ status b' = Available ∧ due_back b' = None ∧ borrower b' = None.
Proof.
  apply (return_idempotent confirmation_form
           (librarian_request "POST" true) (librarian_request "POST" true)
           1%N (library I1) I1); reflexivity.
Defined.

(** C7. A POST to Return whose form fails validation leaves the row, and the
    whole persisted state, as it was, and still answers with the redirect to
    the listing of all borrowed copies: the response of a Return that went
    through, so the caller is not told. *)
Theorem return_invalid_form_still_redirects {QueryDict}
    (ReturnBookModelForm : QueryDict → list string + unit)
    (request : HttpRequest QueryDict) (pk : UUID) (w : World)
    (b : BookInstance) :
  can_mark_returned request = true →
  method request = "POST" →
  is_valid (bound_form ReturnBookModelForm (POST request)) = false →
  stored w pk = Some b →
  let result := return_book_librarian ReturnBookModelForm request pk w in
  result = (Return (HttpResponseRedirect (reverse "all-borrowed")), w)
  ∧ stored result.2 pk = Some b
  ∧ ∀ accepted : HttpRequest QueryDict,
      can_mark_returned accepted = true →
      method accepted = "POST" →
      is_valid (bound_form ReturnBookModelForm (POST accepted)) = true →
      (return_book_librarian ReturnBookModelForm accepted pk w).1 = result.1.
Proof.
  intros Hp Hm Hf Hs result.
  assert (E : result
    = (Return (HttpResponseRedirect (reverse "all-borrowed")), w))
    by by apply return_post_invalid with b.
  rewrite E. simpl. repeat split; [done|].
  intros accepted Hp' Hm' Hf'.
  by rewrite (return_post_valid _ _ _ _ b).
Qed.

Lemma return_invalid_form_still_redirects_witness :
  let result :=
    return_book_librarian confirmation_form (librarian_request "POST" false)
      1%N (library I1) in
  result
  = (Return (HttpResponseRedirect (reverse "all-borrowed")), library I1)
  ∧ stored result.2 1%N = Some I1
  ∧ ∀ accepted : HttpRequest bool,
      can_mark_returned accepted = true →
      method accepted = "POST" →
      is_valid (bound_form confirmation_form (POST accepted)) = true →
      (return_book_librarian confirmation_form accepted 1%N (library I1)).1
      = result.1.
Proof.
  apply (return_invalid_form_still_redirects confirmation_form
           (librarian_request "POST" false) 1%N (library I1) I1);
    reflexivity.
Defined.

(** What a renewal does to the loan invariant. *)
Lemma loan_invariant_renewed (b : BookInstance) (d : date) :
  loan_invariant (set_due_back (Some d) b)
  ↔ (status b = OnLoan ↔ borrower b ≠ None).
Proof.
  unfold loan_invariant. simpl.
  destruct (decide (status b = OnLoan)) as [Hs|Hs],
    (decide (borrower b ≠ None)) as [Hb|Hb].
  - rewrite !bool_decide_eq_true_2 by done. tauto.
  - rewrite bool_decide_eq_true_2, bool_decide_eq_false_2 by done.
    split; [discriminate|tauto].
  - rewrite bool_decide_eq_false_2, bool_decide_eq_true_2 by done.
    split; [discriminate|tauto].
  - rewrite !bool_decide_eq_false_2 by done. tauto.
Qed.

Lemma loan_invariant_returned (b : BookInstance) : loan_invariant (returned b).
Proof. reflexivity. Qed.

(** C1, as the code has it. After a successful Return the persisted
    instance satisfies the loan invariant.  A successful Renew does not test
    the status: the persisted instance satisfies the invariant exactly when,
    before the renewal, the instance was on loan if and only if it had a
    borrower; so it does for every instance that is on loan to a borrower. *)
Theorem loan_invariant_after_success {QueryDict} (today : date)
    (RenewBookModelForm : QueryDict → list string + date)
    (ReturnBookModelForm : QueryDict → list string + unit)
    (request : HttpRequest QueryDict) (pk : UUID) (w : World)
    (b : BookInstance) :
  can_mark_returned request = true →
  method request = "POST" →
  stored w pk = Some b →
  (is_valid (bound_form ReturnBookModelForm (POST request)) = true →
   ∃ w' b',
     return_book_librarian ReturnBookModelForm request pk w
     = (Return (HttpResponseRedirect (reverse "all-borrowed")), w')
     ∧ stored w' pk = Some b'
     ∧ loan_invariant b')
  ∧ (∀ proposed_due_date,
       RenewBookModelForm (POST request) = inr proposed_due_date →
       ∃ w' b',
         renew_book_librarian today RenewBookModelForm request pk w
         = (Return (HttpResponseRedirect (reverse "all-borrowed")), w')
         ∧ stored w' pk = Some b'
         ∧ (loan_invariant b' ↔ (status b = OnLoan ↔ borrower b ≠ None))
         ∧ (status b = OnLoan → borrower b ≠ None → loan_invariant b')).
Proof.
  intros Hp Hm Hs. split.
  - intros Hf. exists (with_row pk (returned b) w), (returned b).
    split; [by apply return_post_valid|].
    split; [apply stored_with_row|apply loan_invariant_returned].
  - intros d Hf.
    exists (with_row pk (set_due_back (Some d) b) w),
      (set_due_back (Some d) b).
    split; [by apply renew_post_valid|].
    split; [apply stored_with_row|].
    split; [apply loan_invariant_renewed|].
    intros Hst Hb. by apply loan_invariant_renewed.
Qed.

Lemma loan_invariant_after_success_witness :
  loan_invariant I1
  ∧ (is_valid (bound_form (λ _ : date, inr tt)
                (POST (librarian_request "POST" jan_20))) = true →
     ∃ w' b',
       return_book_librarian (λ _ : date, inr tt)
         (librarian_request "POST" jan_20) 1%N (library I1)
       = (Return (HttpResponseRedirect (reverse "all-borrowed")), w')
       ∧ stored w' 1%N = Some b'
       ∧ loan_invariant b')
  ∧ (∀ proposed_due_date,
       clean_due_back jan_05 (POST (librarian_request "POST" jan_20))
       = inr proposed_due_date →
       ∃ w' b',
         renew_book_librarian jan_05 (clean_due_back jan_05)
           (librarian_request "POST" jan_20) 1%N (library I1)
         = (Return (HttpResponseRedirect (reverse "all-borrowed")), w')
         ∧ stored w' 1%N = Some b'
         ∧ (loan_invariant b' ↔ (status I1 = OnLoan ↔ borrower I1 ≠ None))
         ∧ (status I1 = OnLoan → borrower I1 ≠ None → loan_invariant b')).
Proof.
  split; [reflexivity|].
  apply (loan_invariant_after_success jan_05 (clean_due_back jan_05)
           (λ _ : date, inr tt) (librarian_request "POST" jan_20) 1%N
           (library I1) I1); reflexivity.
Defined.

(** C1 as written fails: a copy reserved for a reader satisfies the
    invariant; renewing it succeeds, and the persisted copy has a due date
    and a borrower without being on loan. *)
Lemma renew_breaks_loan_invariant :
  let result :=
    renew_book_librarian jan_05 (clean_due_back jan_05)
      (librarian_request "POST" jan_20) 1%N (library I2) in
  loan_invariant I2
  ∧ result.1 = Return (HttpResponseRedirect (reverse "all-borrowed"))
  ∧ ∃ b', stored result.2 1%N = Some b' ∧ ¬ loan_invariant b'.
Proof.
  split; [reflexivity|]. split; [reflexivity|].
  exists (set_due_back (Some jan_20) I2). split; [reflexivity|].
  unfold loan_invariant. simpl. discriminate.
Qed.

(** * The landing view *)

(** C6, as the code has it. For a logged-in user the landing view counts
    the visit itself: it reads the counter of the session (0 when absent),
    adds one, writes the sum back to the session and shows that sum; the
    database is left alone. *)
Theorem index_counts_the_visit {QueryDict} (request : HttpRequest QueryDict)
    (w : World) :
  is_Some (user request) →
  let visits := default 0 (session w !! "num_visits") in
  ∃ context w',
    index request w = (Return (render "index.html" context), w')
    ∧ num_visits context = visits + 1
    ∧ session w' = <["num_visits" := visits + 1]> (session w)
    ∧ session w' !! "num_visits" = Some (visits + 1)
    ∧ database w' = database w.
Proof.
  intros [u Hu] visits. run_view. rewrite Hu. simpl.
  eexists _, _. split; [reflexivity|]. simpl.
  repeat split. apply lookup_insert_eq.
Qed.

Lemma index_counts_the_visit_witness :
  ∃ context w',
    index (librarian_request "GET" tt) (library I1)
    = (Return (render "index.html" context), w')
    ∧ num_visits context = 0 + 1
    ∧ session w' = <["num_visits" := 0 + 1]> (session (library I1))
    ∧ session w' !! "num_visits" = Some (0 + 1)
    ∧ database w' = database (library I1).
Proof.
  apply (index_counts_the_visit (librarian_request "GET" tt) (library I1)).
  by exists librarian.
Defined.

(** C6 as written fails: a first visit with a fresh session leaves the
    counter 1 in the session, which held no counter before. *)
Lemma index_writes_session :
  let result := index (librarian_request "GET" tt) (library I1) in
  session (library I1) !! "num_visits" = None
  ∧ session result.2 !! "num_visits" = Some 1
  ∧ session result.2 ≠ session (library I1).
Proof.
  split; [reflexivity|]. split; [reflexivity|].
  intros H. apply (f_equal (λ m : gmap string Z, m !! "num_visits")) in H.
  vm_compute in H. discriminate.
Qed.

(** * The loan listings *)

Global Instance due_back_le_total : Total due_back_le.
Proof.
  intros x y. unfold due_back_le.
  destruct (due_back x.2), (due_back y.2); try tauto. lia.
Qed.

Global Instance due_back_le_trans : Transitive due_back_le.
Proof.
  intros x y z. unfold due_back_le.
  destruct (due_back x.2), (due_back y.2), (due_back z.2); try tauto. lia.
Qed.

Lemma elem_of_order_by_due_back rows kv :
  kv ∈ order_by_due_back rows ↔ kv ∈ rows.
Proof. unfold order_by_due_back. by rewrite merge_sort_Permutation. Qed.

Lemma NoDup_order_by_due_back rows :
  NoDup rows → NoDup (order_by_due_back rows).
Proof. unfold order_by_due_back. by rewrite merge_sort_Permutation. Qed.

Lemma order_by_due_back_sorted rows :
  StronglySorted due_back_le (order_by_due_back rows).
Proof. apply StronglySorted_merge_sort; apply _. Qed.

(** C8. The listing of all loans holds exactly the stored instances whose
    status is OnLoan, each once, whoever the borrower is; the listing for a
    borrower holds exactly those of them whose borrower is that user, each
    once; both are in ascending order of due_back. *)
Theorem loan_listings (db : Database) (request_user : User) :
  let on_loan := LoanedBooksListView_get_queryset db in
  let mine := LoanedBooksByUserListView_get_queryset db request_user in
  (∀ pk b, (pk, b) ∈ on_loan
           ↔ BookInstance_objects db !! pk = Some b ∧ status b = OnLoan)
  ∧ NoDup on_loan
  ∧ StronglySorted due_back_le on_loan
  ∧ (∀ pk b, (pk, b) ∈ mine
             ↔ (pk, b) ∈ on_loan ∧ borrower b = Some (user_pk request_user))
  ∧ NoDup mine
  ∧ StronglySorted due_back_le mine.
Proof.
  intros on_loan mine.
  assert (Hall : NoDup (BookInstance_all db)) by apply NoDup_map_to_list.
  assert (Hin : ∀ pk b, (pk, b) ∈ on_loan
            ↔ BookInstance_objects db !! pk = Some b ∧ status b = OnLoan).
  { intros pk b. unfold on_loan, LoanedBooksListView_get_queryset.
    rewrite elem_of_order_by_due_back, list_elem_of_filter.
    unfold BookInstance_all. rewrite elem_of_map_to_list. simpl. tauto. }
  split; [exact Hin|].
  split; [by apply NoDup_order_by_due_back, NoDup_filter|].
  split; [apply order_by_due_back_sorted|].
  split.
  - intros pk b. rewrite Hin.
    unfold mine, LoanedBooksByUserListView_get_queryset.
    rewrite elem_of_order_by_due_back, !list_elem_of_filter.
    unfold BookInstance_all. rewrite elem_of_map_to_list. simpl. tauto.
  - split; [by apply NoDup_order_by_due_back, NoDup_filter, NoDup_filter|].
    apply order_by_due_back_sorted.
Qed.

(** On the shelf of four copies, two are on loan; the one due first comes
    first, and reader 1 sees only their own. *)
Example scenario_listings :
  LoanedBooksListView_get_queryset shelf = [(3%N, I3); (1%N, I1)]
  ∧ LoanedBooksByUserListView_get_queryset shelf (reader 1) = [(1%N, I1)].
Proof. split; reflexivity. Qed.

(** * What the librarian views leave alone *)

Section Frames.
Context {QueryDict : Type}.
Variable today : date.
Variable RenewBookModelForm : QueryDict → list string + date.
Variable ReturnBookModelForm : QueryDict → list string + unit.
Implicit Types (request : HttpRequest QueryDict) (w : World) (pk : UUID).

Lemma renew_cases request pk w :
  (renew_book_librarian today RenewBookModelForm request pk w).2 = w
  ∨ ∃ b d,
      stored w pk = Some b
      ∧ renew_book_librarian today RenewBookModelForm request pk w
        = (Return (HttpResponseRedirect (reverse "all-borrowed")),
           with_row pk (set_due_back (Some d) b) w).
Proof.
  run_view. unfold is_valid, bound_form.
  repeat case_match; simplify_eq/=; eauto.
Qed.

Lemma return_cases request pk w :
  (return_book_librarian ReturnBookModelForm request pk w).2 = w
  ∨ ∃ b,
      stored w pk = Some b
      ∧ return_book_librarian ReturnBookModelForm request pk w
        = (Return (HttpResponseRedirect (reverse "all-borrowed")),
           with_row pk (returned b) w).
Proof.
  run_view. unfold is_valid, bound_form.
  repeat case_match; simplify_eq/=; eauto.
Qed.

Lemma same_except_row_refl pk w : same_except_row pk w w.
Proof. by repeat split. Qed.

Lemma same_except_row_with_row pk w b b' :
  stored w pk = Some b → same_except_row pk w (with_row pk b' w).
Proof.
  intros Hs. repeat split; simpl.
  - apply dom_insert_lookup_L. unfold stored in Hs. by rewrite Hs.
  - intros pk' Hne. by apply stored_with_row_ne.
Qed.

Lemma gate_closed C request
    (view : HttpRequest QueryDict → View (HttpResponse C)) w :
  can_mark_returned request = false →
  permission_required "catalog.can_mark_returned" view request w
  = (Return redirect_to_login, w).
Proof.
  unfold can_mark_returned, permission_required.
  destruct (user request) as [u|]; [|done]. by intros ->.
Qed.

End Frames.

(** X1. A caller who does not hold the capability, logged in or anonymous,
    is sent to the login page by both librarian views, whatever the method,
    the data and the key, and nothing is written; the answer is the same for
    a key that exists and for one that does not. *)
Theorem librarian_gate_closed {QueryDict} (today : date)
    (RenewBookModelForm : QueryDict → list string + date)
    (ReturnBookModelForm : QueryDict → list string + unit)
    (request : HttpRequest QueryDict) (pk : UUID) (w : World) :
  can_mark_returned request = false →
  renew_book_librarian today RenewBookModelForm request pk w
  = (Return redirect_to_login, w)
  ∧ return_book_librarian ReturnBookModelForm request pk w
    = (Return redirect_to_login, w).
Proof.
  intros Hp. unfold renew_book_librarian, return_book_librarian.
  by rewrite !gate_closed.
Qed.

Lemma librarian_gate_closed_witness :
  renew_book_librarian jan_05 (clean_due_back jan_05)
    {| method := "POST"; POST := jan_20; user := Some (reader 1) |}
    5%N (library I1)
  = (Return redirect_to_login, library I1)
  ∧ return_book_librarian (λ _ : date, inr tt)
      {| method := "POST"; POST := jan_20; user := Some (reader 1) |}
      5%N (library I1)
    = (Return redirect_to_login, library I1).
Proof.
  apply (librarian_gate_closed jan_05 (clean_due_back jan_05)
           (λ _ : date, inr tt)
           {| method := "POST"; POST := jan_20; user := Some (reader 1) |}
           5%N (library I1)).
  reflexivity.
Defined.

(** X2. Whatever the request, Renew touches nothing but the due date of the
    row under its key: the session, the other tables, the set of stored keys
    and every other row are as before, and the row itself keeps its book,
    imprint, status and borrower. *)
Theorem renew_frame {QueryDict} (today : date)
    (RenewBookModelForm : QueryDict → list string + date)
    (request : HttpRequest QueryDict) (pk : UUID) (w : World) :
  let w' := (renew_book_librarian today RenewBookModelForm request pk w).2 in
  same_except_row pk w w'
  ∧ ∀ b b', stored w pk = Some b → stored w' pk = Some b' →
      book b' = book b ∧ imprint b' = imprint b
      ∧ status b' = status b ∧ borrower b' = borrower b.
Proof.
  intros w'. subst w'.
  destruct (renew_cases today RenewBookModelForm request pk w)
    as [->|(b0 & d & Hs & ->)]; simpl.
  - split; [apply same_except_row_refl|]. intros b b' ? ?. by simplify_eq.
  - split; [by eapply same_except_row_with_row|].
    intros b b' Hb Hb'. rewrite stored_with_row in Hb'. by simplify_eq.
Qed.

(** X3. Whatever the request, Return touches nothing but the row under its
    key, which it either leaves as it is or resets to Available with no due
    date and no borrower; the book and imprint of the row, the session, the
    other tables, the set of stored keys and every other row are as before. *)
Theorem return_frame {QueryDict}
    (ReturnBookModelForm : QueryDict → list string + unit)
    (request : HttpRequest QueryDict) (pk : UUID) (w : World) :
  let w' := (return_book_librarian ReturnBookModelForm request pk w).2 in
  same_except_row pk w w'
  ∧ ∀ b b', stored w pk = Some b → stored w' pk = Some b' →
      book b' = book b ∧ imprint b' = imprint b
      ∧ (b' = b
         ∨ status b' = Available ∧ due_back b' = None ∧ borrower b' = None).
Proof.
  intros w'. subst w'.
  destruct (return_cases ReturnBookModelForm request pk w)
    as [->|(b0 & Hs & ->)]; simpl.
  - split; [apply same_except_row_refl|].
    intros b b' ? ?. simplify_eq. auto.
  - split; [by eapply same_except_row_with_row|].
    intros b b' Hb Hb'. rewrite stored_with_row in Hb'. simplify_eq.
    repeat split. by right.
Qed.

(** * Requests that are not a POST, and forms that do not validate *)

(** X4. A request whose method is not POST writes nothing through either
    librarian view, whatever the caller, the key and the data; for a caller
    with the capability and an existing key, Return answers with its page
    holding an unbound form without initial values and the stored
    instance. *)
Theorem non_post_is_safe {QueryDict} (today : date)
    (RenewBookModelForm : QueryDict → list string + date)
    (ReturnBookModelForm : QueryDict → list string + unit)
    (request : HttpRequest QueryDict) (pk : UUID) (w : World) :
  method request ≠ "POST" →
  (renew_book_librarian today RenewBookModelForm request pk w).2 = w
  ∧ (return_book_librarian ReturnBookModelForm request pk w).2 = w
  ∧ ∀ b, can_mark_returned request = true → stored w pk = Some b →
      return_book_librarian ReturnBookModelForm request pk w
      = (Return (render "catalog/book_return_librarian.html"
                   {| form := {| is_bound := false; initial := None;
                                 errors := []; cleaned_data := None |};
                      book_instance := b |}), w).
Proof.
  intros Hm. apply String.eqb_neq in Hm.
  split; [|split].
  - run_view. rewrite Hm. repeat case_match; by simplify_eq/=.
  - run_view. rewrite Hm. repeat case_match; by simplify_eq/=.
  - intros b Hp Hs. unfold return_book_librarian.
    rewrite gate_open by done. run_view. by rewrite Hs, Hm.
Qed.

Lemma non_post_is_safe_witness :
  (renew_book_librarian jan_05 (clean_due_back jan_05)
     (librarian_request "GET" jan_20) 1%N (library I1)).2 = library I1
  ∧ (return_book_librarian (λ _ : date, inr tt)
       (librarian_request "GET" jan_20) 1%N (library I1)).2 = library I1
  ∧ ∀ b, can_mark_returned (librarian_request "GET" jan_20) = true →
      stored (library I1) 1%N = Some b →
      return_book_librarian (λ _ : date, inr tt)
        (librarian_request "GET" jan_20) 1%N (library I1)
      = (Return (render "catalog/book_return_librarian.html"
                   {| form := {| is_bound := false; initial := None;
                                 errors := []; cleaned_data := None |};
                      book_instance := b |}), library I1).
Proof.
  apply (non_post_is_safe jan_05 (clean_due_back jan_05) (λ _ : date, inr tt)
           (librarian_request "GET" jan_20) 1%N (library I1)).
  discriminate.
Defined.

(** X5. A POST to Renew whose form does not validate is answered with the
    renewal page again: the bound form with exactly the errors the form
    class reported and no cleaned data, and the instance as stored; nothing
    is written.  This holds for any form class. *)
Theorem renew_invalid_form_shown_again {QueryDict} (today : date)
    (RenewBookModelForm : QueryDict → list string + date)
    (request : HttpRequest QueryDict) (pk : UUID) (w : World)
    (b : BookInstance) (errs : list string) :
  can_mark_returned request = true →
  method request = "POST" →
  stored w pk = Some b →
  RenewBookModelForm (POST request) = inl errs →
  errs ≠ [] →
  ∃ shown,
    renew_book_librarian today RenewBookModelForm request pk w
    = (Return (render "catalog/book_renew_librarian.html"
                 {| form := shown; book_instance := b |}), w)
    ∧ is_bound shown = true
    ∧ errors shown = errs
    ∧ cleaned_data shown = None
    ∧ is_valid shown = false.
Proof.
  intros Hp Hm Hs Hf Hne.
  exists {| is_bound := true; initial := None;
            errors := errs; cleaned_data := None |}.
  split; [by apply renew_post_invalid|].
  repeat split. unfold is_valid. simpl. by apply bool_decide_eq_false.
Qed.

Lemma renew_invalid_form_shown_again_witness :
  ∃ shown,
    renew_book_librarian jan_05 (clean_due_back jan_05)
      (librarian_request "POST" jan_01) 1%N (library I1)
    = (Return (render "catalog/book_renew_librarian.html"
                 {| form := shown; book_instance := I1 |}), library I1)
    ∧ is_bound shown = true
    ∧ errors shown = ["date in past"]
    ∧ cleaned_data shown = None
    ∧ is_valid shown = false.
Proof.
  apply (renew_invalid_form_shown_again jan_05 (clean_due_back jan_05)
           (librarian_request "POST" jan_01) 1%N (library I1) I1
           ["date in past"]); try reflexivity.
  discriminate.
Defined.

(** X6. A request to Renew that is not a POST raises OverflowError, and
    writes nothing, when three weeks from today is past the last date of the
    calendar (or before its first). *)
Theorem renew_proposal_overflow {QueryDict} (today : date)
    (RenewBookModelForm : QueryDict → list string + date)
    (request : HttpRequest QueryDict) (pk : UUID) (w : World)
    (b : BookInstance) :
  can_mark_returned request = true →
  method request ≠ "POST" →
  stored w pk = Some b →
  ¬ (MINORDINAL ≤ today + 21 ≤ MAXORDINAL) →
  renew_book_librarian today RenewBookModelForm request pk w
  = (Raise OverflowError, w).
Proof.
  intros Hp Hm Hs Hr. unfold renew_book_librarian. rewrite gate_open by done.
  run_view. rewrite Hs. apply String.eqb_neq in Hm. rewrite Hm.
  by rewrite bool_decide_eq_false_2.
Qed.

Lemma renew_proposal_overflow_witness :
  renew_book_librarian MAXORDINAL (clean_due_back MAXORDINAL)
    (librarian_request "GET" jan_20) 1%N (library I1)
  = (Raise OverflowError, library I1).
Proof.
  apply (renew_proposal_overflow MAXORDINAL (clean_due_back MAXORDINAL)
           (librarian_request "GET" jan_20) 1%N (library I1) I1).
  - reflexivity.
  - discriminate.
  - reflexivity.
  - unfold MINORDINAL, MAXORDINAL. lia.
Defined.

(** * How renewals and returns compose *)

(** X7. Of two successful renewals of the same key the later one wins: the
    state is the one the second renewal alone would have produced, and the
    row carries the second date. *)
Theorem renew_last_write_wins {QueryDict} (today : date)
    (RenewBookModelForm : QueryDict → list string + date)
    (first second : HttpRequest QueryDict) (pk : UUID) (w : World)
    (b : BookInstance) (d1 d2 : date) :
  can_mark_returned first = true →
  method first = "POST" →
  RenewBookModelForm (POST first) = inr d1 →
  can_mark_returned second = true →
  method second = "POST" →
  RenewBookModelForm (POST second) = inr d2 →
  stored w pk = Some b →
  let once := renew_book_librarian today RenewBookModelForm first pk w in
  let twice :=
    renew_book_librarian today RenewBookModelForm second pk once.2 in
  twice.1 = Return (HttpResponseRedirect (reverse "all-borrowed"))
  ∧ twice.2 = (renew_book_librarian today RenewBookModelForm second pk w).2
  ∧ stored twice.2 pk = Some (set_due_back (Some d2) b).
Proof.
  intros Hp1 Hm1 Hf1 Hp2 Hm2 Hf2 Hs once twice. subst once twice.
  rewrite (renew_post_valid today _ first pk w b d1) by done. simpl.
  rewrite (renew_post_valid today _ second pk _
             (set_due_back (Some d1) b) d2)
    by (try done; apply stored_with_row).
  rewrite (renew_post_valid today _ second pk w b d2) by done. simpl.
  rewrite with_row_twice. repeat split. apply stored_with_row.
Qed.

Lemma renew_last_write_wins_witness :
  let once :=
    renew_book_librarian jan_05 (clean_due_back jan_05)
      (librarian_request "POST" jan_20) 1%N (library I1) in
  let twice :=
    renew_book_librarian jan_05 (clean_due_back jan_05)
      (librarian_request "POST" jan_10) 1%N once.2 in
  twice.1 = Return (HttpResponseRedirect (reverse "all-borrowed"))
  ∧ twice.2
    = (renew_book_librarian jan_05 (clean_due_back jan_05)
         (librarian_request "POST" jan_10) 1%N (library I1)).2
  ∧ stored twice.2 1%N = Some (set_due_back (Some jan_10) I1).
Proof.
  apply (renew_last_write_wins jan_05 (clean_due_back jan_05)
           (librarian_request "POST" jan_20) (librarian_request "POST" jan_10)
           1%N (library I1) I1 jan_20 jan_10); reflexivity.
Defined.

(** X8. A Return wipes out an earlier renewal: returning a copy after a
    successful renewal leaves the state that returning it straight away
    would have left. *)
Theorem renew_then_return {QueryDict} (today : date)
    (RenewBookModelForm : QueryDict → list string + date)
    (ReturnBookModelForm : QueryDict → list string + unit)
    (renewal giving_back : HttpRequest QueryDict) (pk : UUID) (w : World)
    (b : BookInstance) (d : date) :
  can_mark_returned renewal = true →
  method renewal = "POST" →
  RenewBookModelForm (POST renewal) = inr d →
  can_mark_returned giving_back = true →
  method giving_back = "POST" →
  is_valid (bound_form ReturnBookModelForm (POST giving_back)) = true →
  stored w pk = Some b →
  let renewed :=
    renew_book_librarian today RenewBookModelForm renewal pk w in
  return_book_librarian ReturnBookModelForm giving_back pk renewed.2
  = return_book_librarian ReturnBookModelForm giving_back pk w.
Proof.
  intros Hp1 Hm1 Hf1 Hp2 Hm2 Hf2 Hs renewed. subst renewed.
  rewrite (renew_post_valid today _ renewal pk w b d) by done. simpl.
  rewrite (return_post_valid _ giving_back pk _ (set_due_back (Some d) b))
    by (try done; apply stored_with_row).
  rewrite (return_post_valid _ giving_back pk w b) by done.
  by rewrite with_row_twice.
Qed.

Lemma renew_then_return_witness :
  let renewed :=
    renew_book_librarian jan_05 (clean_due_back jan_05)
      (librarian_request "POST" jan_20) 1%N (library I1) in
  return_book_librarian (λ _ : date, inr tt)
    (librarian_request "POST" jan_20) 1%N renewed.2
  = return_book_librarian (λ _ : date, inr tt)
      (librarian_request "POST" jan_20) 1%N (library I1).
Proof.
  apply (renew_then_return jan_05 (clean_due_back jan_05)
           (λ _ : date, inr tt)
           (librarian_request "POST" jan_20) (librarian_request "POST" jan_20)
           1%N (library I1) I1 jan_20); reflexivity.
Defined.

(** X9. A renewal is accepted for a copy that has just been returned: it
    succeeds and persists a due date on a row that is Available and has no
    borrower. *)
Theorem return_then_renew {QueryDict} (today : date)
    (RenewBookModelForm : QueryDict → list string + date)
    (ReturnBookModelForm : QueryDict → list string + unit)
    (giving_back renewal : HttpRequest QueryDict) (pk : UUID) (w : World)
    (b : BookInstance) (d : date) :
  can_mark_returned giving_back = true →
  method giving_back = "POST" →
  is_valid (bound_form ReturnBookModelForm (POST giving_back)) = true →
  can_mark_returned renewal = true →
  method renewal = "POST" →
  RenewBookModelForm (POST renewal) = inr d →
  stored w pk = Some b →
  let back := return_book_librarian ReturnBookModelForm giving_back pk w in
  let renewed :=
    renew_book_librarian today RenewBookModelForm renewal pk back.2 in
  renewed.1 = Return (HttpResponseRedirect (reverse "all-borrowed"))
  ∧ ∃ b', stored renewed.2 pk = Some b'
      ∧ status b' = Available
      ∧ due_back b' = Some d
      ∧ borrower b' = None.
Proof.
  intros Hp1 Hm1 Hf1 Hp2 Hm2 Hf2 Hs back renewed. subst back renewed.
  rewrite (return_post_valid _ giving_back pk w b) by done. simpl.
  rewrite (renew_post_valid today _ renewal pk _ (returned b) d)
    by (try done; apply stored_with_row).
  simpl. split; [done|].
  exists (set_due_back (Some d) (returned b)).
  split; [apply stored_with_row|done].
Qed.

Lemma return_then_renew_witness :
  let back :=
    return_book_librarian (λ _ : date, inr tt)
      (librarian_request "POST" jan_20) 1%N (library I1) in
  let renewed :=
    renew_book_librarian jan_05 (clean_due_back jan_05)
      (librarian_request "POST" jan_20) 1%N back.2 in
  renewed.1 = Return (HttpResponseRedirect (reverse "all-borrowed"))
  ∧ ∃ b', stored renewed.2 1%N = Some b'
      ∧ status b' = Available
      ∧ due_back b' = Some jan_20
      ∧ borrower b' = None.
Proof.
  apply (return_then_renew jan_05 (clean_due_back jan_05)
           (λ _ : date, inr tt)
           (librarian_request "POST" jan_20) (librarian_request "POST" jan_20)
           1%N (library I1) I1 jan_20); reflexivity.
Defined.

(** * More on the landing view *)

Lemma index_logged_in {QueryDict} (request : HttpRequest QueryDict) w :
  is_Some (user request) →
  ∃ context,
    index request w
    = (Return (render "index.html" context),
       set_session
         (<["num_visits" := default 0 (session w !! "num_visits") + 1]>
            (session w)) w)
    ∧ num_visits context = default 0 (session w !! "num_visits") + 1
    ∧ num_books context = count (Book_objects (database w))
    ∧ num_instances context = count (BookInstance_objects (database w))
    ∧ num_books_el context
      = count (filter (λ kv, icontains (title kv.2) "el " = true)
                 (Book_objects (database w)))
    ∧ num_instances_available context
      = count (filter (λ kv, status kv.2 = Available)
                 (BookInstance_objects (database w)))
    ∧ num_authors context = count (Author_objects (database w))
    ∧ num_genres context = count (Genre_objects (database w)).
Proof.
  intros [u Hu]. run_view. rewrite Hu. simpl.
  eexists. split; [reflexivity|]. by repeat split.
Qed.

(** X10. An anonymous visitor of the landing page is sent to the login page
    and the visit is not counted: the session and the database are as
    before. *)
Theorem index_anonymous {QueryDict} (request : HttpRequest QueryDict)
    (w : World) :
  user request = None →
  index request w = (Return redirect_to_login, w).
Proof. intros Hu. run_view. by rewrite Hu. Qed.

Lemma index_anonymous_witness :
  index {| method := "GET"; POST := tt; user := None |} (library I1)
  = (Return redirect_to_login, library I1).
Proof.
  apply (index_anonymous {| method := "GET"; POST := tt; user := None |}
           (library I1)).
  reflexivity.
Defined.

(** X11. Each visit of a logged-in user advances the counter by one: after
    [n] visits in a row the counter of the session is [n] more than at the
    start (a missing counter counts as 0), the next visit shows one more
    than that, and the database has not changed. *)
Theorem index_repeated_visits {QueryDict} (request : HttpRequest QueryDict)
    (w : World) (n : nat) :
  is_Some (user request) →
  let start := default 0 (session w !! "num_visits") in
  let w' := visits n request w in
  default 0 (session w' !! "num_visits") = start + Z.of_nat n
  ∧ database w' = database w
  ∧ ∃ context,
      (index request w').1 = Return (render "index.html" context)
      ∧ num_visits context = start + Z.of_nat n + 1.
Proof.
  intros Hu start w'. subst start w'.
  assert (Hn : default 0 (session (visits n request w) !! "num_visits")
               = default 0 (session w !! "num_visits") + Z.of_nat n
               ∧ database (visits n request w) = database w).
  { induction n as [|n [IHs IHd]]; simpl.
    - split; [lia|done].
    - destruct (index_logged_in request (visits n request w) Hu)
        as (context & -> & _). simpl.
      rewrite lookup_insert_eq. simpl. split; [lia|done]. }
  destruct Hn as [Hs Hd]. split; [done|]. split; [done|].
  destruct (index_logged_in request (visits n request w) Hu)
    as (context & -> & Hv & _).
  exists context. split; [done|]. rewrite Hv. lia.
Qed.

Lemma index_repeated_visits_witness :
  let w' := visits 3 (librarian_request "GET" tt) (library I1) in
  default 0 (session w' !! "num_visits")
  = default 0 (session (library I1) !! "num_visits") + Z.of_nat 3
  ∧ database w' = database (library I1)
  ∧ ∃ context,
      (index (librarian_request "GET" tt) w').1
      = Return (render "index.html" context)
      ∧ num_visits context
        = default 0 (session (library I1) !! "num_visits") + Z.of_nat 3 + 1.
Proof.
  apply (index_repeated_visits (librarian_request "GET" tt) (library I1) 3).
  by exists librarian.
Defined.

(** X12. The counts on the landing page are consistent: none is negative,
    the available copies are at most the copies, and the books whose title
    contains ["el "] are at most the books. *)
Theorem index_count_bounds {QueryDict} (request : HttpRequest QueryDict)
    (w : World) :
  is_Some (user request) →
  ∃ context,
    (index request w).1 = Return (render "index.html" context)
    ∧ 0 ≤ num_instances_available context ≤ num_instances context
    ∧ 0 ≤ num_books_el context ≤ num_books context
    ∧ 0 ≤ num_authors context
    ∧ 0 ≤ num_genres context.
Proof.
  intros Hu.
  destruct (index_logged_in request w Hu)
    as (context & -> & _ & Hb & Hi & Hel & Ha & Hau & Hg).
  exists context. split; [done|].
  rewrite Hb, Hi, Hel, Ha, Hau, Hg. unfold count.
  pose proof (map_subseteq_size _ _
    (map_filter_subseteq (λ kv : UUID * BookInstance, status kv.2 = Available)
       (BookInstance_objects (database w)))).
  pose proof (map_subseteq_size _ _
    (map_filter_subseteq (λ kv : N * Book, icontains (title kv.2) "el " = true)
       (Book_objects (database w)))).
  lia.
Qed.

Lemma index_count_bounds_witness :
  ∃ context,
    (index (librarian_request "GET" tt) (library I1)).1
    = Return (render "index.html" context)
    ∧ 0 ≤ num_instances_available context ≤ num_instances context
    ∧ 0 ≤ num_books_el context ≤ num_books context
    ∧ 0 ≤ num_authors context
    ∧ 0 ≤ num_genres context.
Proof.
  apply (index_count_bounds (librarian_request "GET" tt) (library I1)).
  by exists librarian.
Defined.

(** * The landing page and the listings after a renewal or a return *)

Lemma size_available_replace (m : gmap UUID BookInstance) pk b b' :
  m !! pk = Some b →
  (size (filter (λ kv : UUID * BookInstance, status kv.2 = Available)
           (<[pk := b']> m))
   + (if decide (status b = Available) then 1 else 0)
   = size (filter (λ kv : UUID * BookInstance, status kv.2 = Available) m)
     + (if decide (status b' = Available) then 1 else 0))%nat.
Proof.
  intros Hm.
  set (P := λ kv : UUID * BookInstance, status kv.2 = Available).
  assert (HF : filter P m !! pk = if decide (status b = Available)
                                  then Some b else None).
  { case_decide.
    - by apply map_lookup_filter_Some_2.
    - apply map_lookup_filter_None_2. right. intros x ?. by simplify_eq. }
  assert (Hdel : (size (delete pk (filter P m))
                  + (if decide (status b = Available) then 1 else 0)
                  = size (filter P m))%nat).
  { rewrite map_size_delete, HF. case_decide; simpl; [|lia].
    assert (size (filter P m) ≠ 0%nat); [|lia].
    intros H0. apply map_size_empty_inv in H0.
    by rewrite H0, lookup_empty in HF. }
  destruct (decide (status b' = Available)) as [Hb'|Hb'].
  - rewrite (map_filter_insert_True P) by done.
    rewrite <-insert_delete_eq, map_size_insert_None
      by apply lookup_delete_eq. lia.
  - rewrite (map_filter_insert_False P) by done.
    rewrite map_filter_delete. lia.
Qed.

(** X13. What the landing page shows after a Return that went through: the
    number of copies is the same, and the number of available copies is one
    more when the copy was not Available before and the same when it was;
    the counts of books, titles with ["el "], authors and genres are the
    same. *)
Theorem landing_counts_after_return {QueryDict Visit}
    (ReturnBookModelForm : QueryDict → list string + unit)
    (request : HttpRequest QueryDict) (visit : HttpRequest Visit)
    (pk : UUID) (w : World) (b : BookInstance) :
  can_mark_returned request = true →
  method request = "POST" →
  is_valid (bound_form ReturnBookModelForm (POST request)) = true →
  stored w pk = Some b →
  is_Some (user visit) →
  let w' := (return_book_librarian ReturnBookModelForm request pk w).2 in
  ∃ before after,
    (index visit w).1 = Return (render "index.html" before)
    ∧ (index visit w').1 = Return (render "index.html" after)
    ∧ num_instances after = num_instances before
    ∧ num_instances_available after
      = num_instances_available before
        + (if decide (status b = Available) then 0 else 1)
    ∧ num_books after = num_books before
    ∧ num_books_el after = num_books_el before
    ∧ num_authors after = num_authors before
    ∧ num_genres after = num_genres before.
Proof.
  intros Hp Hm Hf Hs Hu w'. subst w'.
  rewrite (return_post_valid _ request pk w b) by done. cbn [snd].
  fold (returned b).
  destruct (index_logged_in visit w Hu)
    as (before & -> & _ & Hb & Hi & Hel & Ha & Hau & Hg).
  destruct (index_logged_in visit (with_row pk (returned b) w) Hu)
    as (after & -> & _ & Hb' & Hi' & Hel' & Ha' & Hau' & Hg').
  exists before, after. simpl in *.
  rewrite Hb, Hi, Hel, Ha, Hau, Hg, Hb', Hi', Hel', Ha', Hau', Hg'.
  repeat split.
  - unfold count. f_equal. apply map_size_insert_Some.
    unfold stored in Hs. by rewrite Hs.
  - unfold count.
    pose proof (size_available_replace _ pk b (returned b) Hs) as H.
    simpl in H. destruct (decide (status b = Available)); lia.
Qed.

Lemma landing_counts_after_return_witness :
  let w' :=
    (return_book_librarian confirmation_form (librarian_request "POST" true)
       1%N (library I1)).2 in
  ∃ before after,
    (index (librarian_request "GET" tt) (library I1)).1
    = Return (render "index.html" before)
    ∧ (index (librarian_request "GET" tt) w').1
      = Return (render "index.html" after)
    ∧ num_instances after = num_instances before
    ∧ num_instances_available after
      = num_instances_available before
        + (if decide (status I1 = Available) then 0 else 1)
    ∧ num_books after = num_books before
    ∧ num_books_el after = num_books_el before
    ∧ num_authors after = num_authors before
    ∧ num_genres after = num_genres before.
Proof.
  apply (landing_counts_after_return confirmation_form
           (librarian_request "POST" true) (librarian_request "GET" tt)
           1%N (library I1) I1); try reflexivity.
  by exists librarian.
Defined.

(** X14. No request to Renew, whatever its outcome, changes a count of the
    landing page: a visit after it shows the numbers a visit instead of it
    would have shown. *)
Theorem landing_counts_after_renew {QueryDict Visit} (today : date)
    (RenewBookModelForm : QueryDict → list string + date)
    (request : HttpRequest QueryDict) (visit : HttpRequest Visit)
    (pk : UUID) (w : World) :
  is_Some (user visit) →
  let w' := (renew_book_librarian today RenewBookModelForm request pk w).2 in
  (index visit w').1 = (index visit w).1.
Proof.
  intros Hu w'. subst w'.
  destruct (renew_cases today RenewBookModelForm request pk w)
    as [->|(b & d & Hs & ->)]; [done|].
  cbn [snd].
  destruct (index_logged_in visit w Hu)
    as (before & -> & Hv & Hb & Hi & Hel & Ha & Hau & Hg).
  destruct (index_logged_in visit (with_row pk (set_due_back (Some d) b) w) Hu)
    as (after & -> & Hv' & Hb' & Hi' & Hel' & Ha' & Hau' & Hg').
  cbn [fst]. do 2 f_equal.
  destruct before, after. simpl in *. subst. f_equal.
  - unfold count. f_equal. apply map_size_insert_Some.
    unfold stored in Hs. by rewrite Hs.
  - pose proof (size_available_replace _ pk b (set_due_back (Some d) b) Hs)
      as H.
    simpl in H. unfold count. destruct (decide (status b = Available)); lia.
Qed.

Lemma landing_counts_after_renew_witness :
  let w' :=
    (renew_book_librarian jan_05 (clean_due_back jan_05)
       (librarian_request "POST" jan_20) 1%N (library I1)).2 in
  (index (librarian_request "GET" tt) w').1
  = (index (librarian_request "GET" tt) (library I1)).1.
Proof.
  apply (landing_counts_after_renew jan_05 (clean_due_back jan_05)
           (librarian_request "POST" jan_20) (librarian_request "GET" tt)
           1%N (library I1)).
  by exists librarian.
Defined.

Lemma elem_of_on_loan db pk b :
  (pk, b) ∈ LoanedBooksListView_get_queryset db
  ↔ BookInstance_objects db !! pk = Some b ∧ status b = OnLoan.
Proof.
  unfold LoanedBooksListView_get_queryset, BookInstance_all.
  rewrite elem_of_order_by_due_back, list_elem_of_filter, elem_of_map_to_list.
  simpl. tauto.
Qed.

Lemma elem_of_on_loan_to db u pk b :
  (pk, b) ∈ LoanedBooksByUserListView_get_queryset db u
  ↔ BookInstance_objects db !! pk = Some b ∧ status b = OnLoan
    ∧ borrower b = Some (user_pk u).
Proof.
  unfold LoanedBooksByUserListView_get_queryset, BookInstance_all.
  rewrite elem_of_order_by_due_back, !list_elem_of_filter, elem_of_map_to_list.
  simpl. tauto.
Qed.

(** X15. After a Return that went through, the copy is on neither loan
    listing, and every other entry of the two listings is as before. *)
Theorem returned_copy_leaves_listings {QueryDict}
    (ReturnBookModelForm : QueryDict → list string + unit)
    (request : HttpRequest QueryDict) (pk : UUID) (w : World)
    (b : BookInstance) (reader : User) :
  can_mark_returned request = true →
  method request = "POST" →
  is_valid (bound_form ReturnBookModelForm (POST request)) = true →
  stored w pk = Some b →
  let w' := (return_book_librarian ReturnBookModelForm request pk w).2 in
  (∀ pk' b',
     (pk', b') ∈ LoanedBooksListView_get_queryset (database w')
     ↔ (pk', b') ∈ LoanedBooksListView_get_queryset (database w) ∧ pk' ≠ pk)
  ∧ (∀ pk' b',
       (pk', b') ∈ LoanedBooksByUserListView_get_queryset (database w') reader
       ↔ (pk', b') ∈ LoanedBooksByUserListView_get_queryset (database w) reader
         ∧ pk' ≠ pk).
Proof.
  intros Hp Hm Hf Hs w'. subst w'.
  rewrite (return_post_valid _ request pk w b) by done. cbn [snd].
  unfold stored in Hs.
  split; intros pk' b'.
  - rewrite !elem_of_on_loan. simpl.
    destruct (decide (pk' = pk)) as [->|Hne].
    + rewrite lookup_insert_eq. split; [|tauto].
      intros [? ?]. by simplify_eq.
    + rewrite lookup_insert_ne by done. tauto.
  - rewrite !elem_of_on_loan_to. simpl.
    destruct (decide (pk' = pk)) as [->|Hne].
    + rewrite lookup_insert_eq. split; [|tauto].
      intros (? & ? & _). by simplify_eq.
    + rewrite lookup_insert_ne by done. tauto.
Qed.

Lemma returned_copy_leaves_listings_witness :
  let w' :=
    (return_book_librarian confirmation_form (librarian_request "POST" true)
       1%N (library I1)).2 in
  (∀ pk' b',
     (pk', b') ∈ LoanedBooksListView_get_queryset (database w')
     ↔ (pk', b') ∈ LoanedBooksListView_get_queryset (database (library I1))
       ∧ pk' ≠ 1%N)
  ∧ (∀ pk' b',
       (pk', b')
       ∈ LoanedBooksByUserListView_get_queryset (database w') (reader 1)
       ↔ (pk', b')
         ∈ LoanedBooksByUserListView_get_queryset (database (library I1))
             (reader 1)
         ∧ pk' ≠ 1%N).
Proof.
  apply (returned_copy_leaves_listings confirmation_form
           (librarian_request "POST" true) 1%N (library I1) I1 (reader 1));
    reflexivity.
Defined.

Lemma length_on_loan_replace db pk b b' :
  BookInstance_objects db !! pk = Some b →
  status b' = status b →
  length (LoanedBooksListView_get_queryset
            (set_BookInstance_objects
               (<[pk := b']> (BookInstance_objects db)) db))
  = length (LoanedBooksListView_get_queryset db).
Proof.
  intros Hs Hst.
  unfold LoanedBooksListView_get_queryset, order_by_due_back, BookInstance_all.
  simpl.
  set (P := λ kv : UUID * BookInstance, status kv.2 = OnLoan).
  set (m := BookInstance_objects db) in *.
  pose proof (merge_sort_Permutation due_back_le
                (filter P (map_to_list (<[pk := b']> m)))) as H1.
  pose proof (merge_sort_Permutation due_back_le
                (filter P (map_to_list m))) as H2.
  apply Permutation_length in H1, H2. rewrite H1, H2. clear H1 H2.
  assert (Hnew : map_to_list (<[pk := b']> m)
                 ≡ₚ (pk, b') :: map_to_list (delete pk m)).
  { rewrite <-insert_delete_eq. apply map_to_list_insert, lookup_delete_eq. }
  assert (Hold : map_to_list m ≡ₚ (pk, b) :: map_to_list (delete pk m)).
  { symmetry. by apply map_to_list_delete. }
  apply (filter_Permutation P) in Hnew, Hold.
  apply Permutation_length in Hnew, Hold. rewrite Hnew, Hold.
  rewrite !filter_cons.
  destruct (decide (P (pk, b'))) as [H1|H1], (decide (P (pk, b))) as [H2|H2];
    try done; unfold P in H1, H2; simpl in H1, H2; congruence.
Qed.

(** X16. After a renewal that went through, the listing of all loans holds
    the copy with its new due date if the copy is on loan, and not at all if
    it is not; every other entry is as before, and the listing is again in
    ascending order of due date. *)
Theorem renewed_copy_in_listing {QueryDict} (today : date)
    (RenewBookModelForm : QueryDict → list string + date)
    (request : HttpRequest QueryDict) (pk : UUID) (w : World)
    (b : BookInstance) (d : date) :
  can_mark_returned request = true →
  method request = "POST" →
  RenewBookModelForm (POST request) = inr d →
  stored w pk = Some b →
  let w' := (renew_book_librarian today RenewBookModelForm request pk w).2 in
  (∀ pk' b',
     (pk', b') ∈ LoanedBooksListView_get_queryset (database w')
     ↔ (pk' = pk ∧ status b = OnLoan ∧ b' = set_due_back (Some d) b)
       ∨ (pk' ≠ pk
          ∧ (pk', b') ∈ LoanedBooksListView_get_queryset (database w)))
  ∧ StronglySorted due_back_le
      (LoanedBooksListView_get_queryset (database w'))
  ∧ length (LoanedBooksListView_get_queryset (database w'))
    = length (LoanedBooksListView_get_queryset (database w)).
Proof.
  intros Hp Hm Hf Hs w'. subst w'.
  rewrite (renew_post_valid today _ request pk w b d) by done. cbn [snd].
  unfold stored in Hs.
  assert (Hin : ∀ pk' b',
     (pk', b') ∈ LoanedBooksListView_get_queryset
                   (database (with_row pk (set_due_back (Some d) b) w))
     ↔ (pk' = pk ∧ status b = OnLoan ∧ b' = set_due_back (Some d) b)
       ∨ (pk' ≠ pk
          ∧ (pk', b') ∈ LoanedBooksListView_get_queryset (database w))).
  { intros pk' b'. rewrite !elem_of_on_loan. simpl.
    destruct (decide (pk' = pk)) as [->|Hne].
    - rewrite lookup_insert_eq. split.
      + intros [? ?]. simplify_eq. left. auto.
      + intros [(_ & ? & ->)|[? _]]; [done|done].
    - rewrite lookup_insert_ne by done. split; [|intros [[? _]|[_ ?]]]; tauto. }
  split; [exact Hin|]. split; [apply order_by_due_back_sorted|].
  by apply (length_on_loan_replace (database w) pk b).
Qed.

Lemma renewed_copy_in_listing_witness :
  let w' :=
    (renew_book_librarian jan_05 (clean_due_back jan_05)
       (librarian_request "POST" jan_20) 1%N (library I1)).2 in
  (∀ pk' b',
     (pk', b') ∈ LoanedBooksListView_get_queryset (database w')
     ↔ (pk' = 1%N ∧ status I1 = OnLoan ∧ b' = set_due_back (Some jan_20) I1)
       ∨ (pk' ≠ 1%N
          ∧ (pk', b')
            ∈ LoanedBooksListView_get_queryset (database (library I1))))
  ∧ StronglySorted due_back_le
      (LoanedBooksListView_get_queryset (database w'))
  ∧ length (LoanedBooksListView_get_queryset (database w'))
    = length (LoanedBooksListView_get_queryset (database (library I1))).
Proof.
  apply (renewed_copy_in_listing jan_05 (clean_due_back jan_05)
           (librarian_request "POST" jan_20) 1%N (library I1) I1 jan_20);
    reflexivity.
Defined.

(** * The pages of the loan listings *)

Section Pagination.
Context {A : Type}.
Implicit Types (l : list A) (n : Z) (per_page : nat).

Lemma num_pages_bounds per_page l :
  (0 < per_page)%nat →
  1 ≤ num_pages per_page l
  ∧ (num_pages per_page l - 1) * Z.of_nat per_page
    < Z.max 1 (Z.of_nat (length l))
  ∧ Z.max 1 (Z.of_nat (length l))
    ≤ num_pages per_page l * Z.of_nat per_page.
Proof.
  intros Hpp. unfold num_pages.
  set (p := Z.of_nat per_page). set (h := Z.max 1 (Z.of_nat (length l))).
  assert (0 < p) by lia. assert (1 ≤ h) by lia.
  pose proof (Z.div_mod (h + p - 1) p ltac:(lia)).
  pose proof (Z.mod_pos_bound (h + p - 1) p ltac:(lia)).
  nia.
Qed.

Lemma Paginator_page_inside per_page l n :
  (0 < per_page)%nat →
  1 ≤ n ≤ num_pages per_page l →
  Paginator_page per_page l n
  = Some (take per_page (drop (Z.to_nat (n - 1) * per_page) l)).
Proof.
  intros Hpp Hn. unfold Paginator_page, slice.
  rewrite bool_decide_eq_false_2 by lia.
  rewrite (bool_decide_eq_false_2 (n > _)) by lia. simpl.
  f_equal. case_bool_decide as Htop.
  - rewrite !take_ge; [done|rewrite length_drop; lia..].
  - f_equal. lia.
Qed.

Lemma Paginator_page_outside per_page l n :
  (0 < per_page)%nat →
  n < 1 ∨ num_pages per_page l < n →
  Paginator_page per_page l n = None.
Proof.
  intros Hpp Hn. unfold Paginator_page.
  pose proof (num_pages_bounds per_page l Hpp) as (? & _).
  case_bool_decide; [done|].
  rewrite bool_decide_eq_true_2 by lia.
  by rewrite (bool_decide_eq_false_2 (n = 1)) by lia.
Qed.

Lemma paginate_queryset_inside l n :
  1 ≤ n ≤ num_pages paginate_by l →
  paginate_queryset l paginate_by (page_int n)
  = Some {| object_list :=
              take paginate_by (drop (Z.to_nat (n - 1) * paginate_by) l);
            is_paginated :=
              bool_decide (1 < n)
              || bool_decide (n < num_pages paginate_by l);
            page_number := n;
            paginator_num_pages := num_pages paginate_by l;
            paginator_count := Z.of_nat (length l) |}.
Proof.
  intros Hn. unfold paginate_queryset. simpl.
  by rewrite Paginator_page_inside by (done || (unfold paginate_by; lia)).
Qed.

Lemma paginate_queryset_outside l n :
  n < 1 ∨ num_pages paginate_by l < n →
  paginate_queryset l paginate_by (page_int n) = None.
Proof.
  intros Hn. unfold paginate_queryset. simpl.
  by rewrite Paginator_page_outside by (done || (unfold paginate_by; lia)).
Qed.

End Pagination.

Section PageContents.
Context {A : Type}.
Implicit Types (l : list A) (n : Z) (i j : nat).

Lemma page_of_position l i x :
  l !! i = Some x →
  ∃ context,
    paginate_queryset l paginate_by (page_int (Z.of_nat (i `div` 10) + 1))
    = Some context
    ∧ object_list context !! (i `mod` 10)%nat = Some x
    ∧ page_number context = Z.of_nat (i `div` 10) + 1.
Proof.
  intros Hi. pose proof (lookup_lt_Some _ _ _ Hi) as Hlt.
  pose proof (num_pages_bounds paginate_by l ltac:(unfold paginate_by; lia))
    as (H1 & _ & Hup).
  pose proof (Nat.div_mod_eq i 10) as Hdm.
  pose proof (Nat.mod_upper_bound i 10 ltac:(lia)) as Hmod.
  unfold paginate_by in *.
  rewrite paginate_queryset_inside by (unfold paginate_by; lia).
  eexists. split; [reflexivity|]. cbn [object_list page_number].
  split; [|done]. unfold paginate_by.
  rewrite lookup_take_lt by lia. rewrite lookup_drop.
  rewrite <-Hi. f_equal. lia.
Qed.

Lemma position_of_page l n context j x :
  paginate_queryset l paginate_by (page_int n) = Some context →
  object_list context !! j = Some x →
  (j < 10)%nat ∧ l !! (Z.to_nat (n - 1) * 10 + j)%nat = Some x.
Proof.
  intros Hp Hj.
  destruct (decide (1 ≤ n ≤ num_pages paginate_by l)) as [Hn|Hn].
  - rewrite paginate_queryset_inside in Hp by done. simplify_eq. simpl in Hj.
    unfold paginate_by in Hj. apply lookup_take_Some in Hj as [Hj ?].
    by rewrite lookup_drop in Hj.
  - rewrite paginate_queryset_outside in Hp by lia. done.
Qed.

Lemma page_length l n context :
  paginate_queryset l paginate_by (page_int n) = Some context →
  1 ≤ n ≤ num_pages paginate_by l
  ∧ Z.of_nat (length (object_list context))
    = Z.min 10 (Z.of_nat (length l) - 10 * (n - 1))
  ∧ (n < num_pages paginate_by l → length (object_list context) = 10%nat)
  ∧ (l ≠ [] → (1 ≤ length (object_list context))%nat).
Proof.
  intros Hp.
  destruct (decide (1 ≤ n ≤ num_pages paginate_by l)) as [Hn|Hn];
    [|by rewrite paginate_queryset_outside in Hp by lia].
  rewrite paginate_queryset_inside in Hp by done. simplify_eq. simpl.
  pose proof (num_pages_bounds paginate_by l ltac:(unfold paginate_by; lia))
    as (H1 & Hlo & Hup).
  unfold paginate_by in *. rewrite length_take, length_drop.
  split; [done|].
  assert (Hlen : l ≠ [] → (0 < length l)%nat).
  { destruct l; [done|simpl; lia]. }
  split; [lia|]. split; [lia|].
  intros Hne. specialize (Hlen Hne). lia.
Qed.

End PageContents.

Lemma ListView_dispatch_read {QueryDict A} template_name (queryset : list A)
    (request : HttpRequest QueryDict) page :
  is_read request →
  ListView_dispatch template_name queryset request page
  = match paginate_queryset queryset paginate_by page with
    | Some context => TemplateResponse template_name context
    | None => HttpResponseNotFound
    end.
Proof.
  intros Hr. unfold ListView_dispatch. by rewrite bool_decide_eq_true_2.
Qed.

Lemma LoanedBooksListView_read {QueryDict} (request : HttpRequest QueryDict)
    page db :
  can_mark_returned request = true →
  is_read request →
  LoanedBooksListView request page db
  = match paginate_queryset (LoanedBooksListView_get_queryset db)
            paginate_by page with
    | Some context =>
        TemplateResponse "catalog/bookinstance_list_borrowed_all.html" context
    | None => HttpResponseNotFound
    end.
Proof.
  intros Hp Hr. unfold LoanedBooksListView, PermissionRequiredMixin.
  unfold can_mark_returned in Hp.
  destruct (user request) as [u|]; [|done]. rewrite Hp.
  by apply ListView_dispatch_read.
Qed.

(** X17. Page [n] of the listing of all loans shows the entries at positions
    [10 (n - 1)] to [10 n - 1] of the query set, in their order: the entry at
    position [i] is on page [i / 10 + 1] at place [i mod 10], and whatever a
    page shows at place [j] is the entry at position [10 (n - 1) + j]. *)
Theorem all_loans_page_positions {QueryDict}
    (request : HttpRequest QueryDict) (db : Database) :
  can_mark_returned request = true →
  is_read request →
  let queryset := LoanedBooksListView_get_queryset db in
  (∀ (i : nat) row, queryset !! i = Some row →
     ∃ context,
       LoanedBooksListView request
         (page_int (Z.of_nat (i `div` 10) + 1)) db
       = TemplateResponse "catalog/bookinstance_list_borrowed_all.html"
           context
       ∧ object_list context !! (i `mod` 10)%nat = Some row)
  ∧ (∀ n template_name context (j : nat) row,
       LoanedBooksListView request (page_int n) db
       = TemplateResponse template_name context →
       object_list context !! j = Some row →
       (j < 10)%nat
       ∧ queryset !! (Z.to_nat (n - 1) * 10 + j)%nat = Some row).
Proof.
  intros Hp Hr queryset. split.
  - intros i row Hi.
    destruct (page_of_position queryset i row Hi) as (context & Hc & Hrow & _).
    exists context. split; [|done].
    rewrite LoanedBooksListView_read by done. fold queryset. by rewrite Hc.
  - intros n t context j row Hv Hj.
    rewrite LoanedBooksListView_read in Hv by done. fold queryset in Hv.
    destruct (paginate_queryset queryset paginate_by (page_int n))
      as [c|] eqn:Hc; [|done].
    simplify_eq. by eapply position_of_page.
Qed.

Lemma all_loans_page_positions_witness :
  let queryset := LoanedBooksListView_get_queryset shelf in
  (∀ (i : nat) row, queryset !! i = Some row →
     ∃ context,
       LoanedBooksListView (librarian_request "GET" tt)
         (page_int (Z.of_nat (i `div` 10) + 1)) shelf
       = TemplateResponse "catalog/bookinstance_list_borrowed_all.html"
           context
       ∧ object_list context !! (i `mod` 10)%nat = Some row)
  ∧ (∀ n template_name context (j : nat) row,
       LoanedBooksListView (librarian_request "GET" tt) (page_int n) shelf
       = TemplateResponse template_name context →
       object_list context !! j = Some row →
       (j < 10)%nat
       ∧ queryset !! (Z.to_nat (n - 1) * 10 + j)%nat = Some row).
Proof.
  apply (all_loans_page_positions (librarian_request "GET" tt) shelf).
  - reflexivity.
  - left. reflexivity.
Defined.

(** X18. A page of the listing of all loans holds at most 10 entries, and
    exactly 10 unless it is the last one; it is empty only when there is no
    loan at all.  Its context reports the page number asked for, the number
    of loans and the number of pages, and says the listing is paginated
    exactly when there are more than 10 loans. *)
Theorem all_loans_page_size {QueryDict}
    (request : HttpRequest QueryDict) (db : Database) (n : Z)
    (template_name : string)
    (context : ListContext (UUID * BookInstance)) :
  can_mark_returned request = true →
  is_read request →
  LoanedBooksListView request (page_int n) db
  = TemplateResponse template_name context →
  let queryset := LoanedBooksListView_get_queryset db in
  (length (object_list context) ≤ 10)%nat
  ∧ (n < paginator_num_pages context →
     length (object_list context) = 10%nat)
  ∧ (queryset ≠ [] → (1 ≤ length (object_list context))%nat)
  ∧ page_number context = n
  ∧ paginator_count context = Z.of_nat (length queryset)
  ∧ paginator_num_pages context = num_pages paginate_by queryset
  ∧ (is_paginated context = true ↔ (10 < length queryset)%nat).
Proof.
  intros Hp Hr Hv queryset.
  rewrite LoanedBooksListView_read in Hv by done. fold queryset in Hv.
  destruct (paginate_queryset queryset paginate_by (page_int n))
    as [c|] eqn:Hc; [|done].
  simplify_eq.
  destruct (page_length queryset n context Hc) as (Hn & Hlen & Hfull & Hne).
  rewrite paginate_queryset_inside in Hc by done. simplify_eq. simpl in *.
  pose proof (num_pages_bounds paginate_by queryset
                ltac:(unfold paginate_by; lia)) as (H1 & Hlo & Hup).
  unfold paginate_by in *.
  split; [lia|]. split; [done|]. split; [done|]. do 3 (split; [done|]).
  rewrite orb_true_iff, !bool_decide_eq_true. lia.
Qed.

Lemma all_loans_page_size_witness :
  let context :=
    {| object_list := LoanedBooksListView_get_queryset shelf;
       is_paginated := false;
       page_number := 1;
       paginator_num_pages := 1;
       paginator_count := 2 |} in
  let queryset := LoanedBooksListView_get_queryset shelf in
  (length (object_list context) ≤ 10)%nat
  ∧ (1 < paginator_num_pages context →
     length (object_list context) = 10%nat)
  ∧ (queryset ≠ [] → (1 ≤ length (object_list context))%nat)
  ∧ page_number context = 1
  ∧ paginator_count context = Z.of_nat (length queryset)
  ∧ paginator_num_pages context = num_pages paginate_by queryset
  ∧ (is_paginated context = true ↔ (10 < length queryset)%nat).
Proof.
  apply (all_loans_page_size (librarian_request "GET" tt) shelf 1
           "catalog/bookinstance_list_borrowed_all.html").
  - reflexivity.
  - left. reflexivity.
  - reflexivity.
Defined.

(** X19. The listing of all loans has the pages 1 to [num_pages] and no
    other: a page number outside that range, or a page value that is neither
    a number nor ["last"], is answered with not found.  No page value means
    page 1, which exists even when nothing is on loan, and ["last"] means
    the last page. *)
Theorem all_loans_pages_served {QueryDict}
    (request : HttpRequest QueryDict) (db : Database) :
  can_mark_returned request = true →
  is_read request →
  let last := num_pages paginate_by (LoanedBooksListView_get_queryset db) in
  1 ≤ last
  ∧ (∀ n, 1 ≤ n ≤ last →
       ∃ context,
         LoanedBooksListView request (page_int n) db
         = TemplateResponse "catalog/bookinstance_list_borrowed_all.html"
             context)
  ∧ (∀ n, n < 1 ∨ last < n →
       LoanedBooksListView request (page_int n) db = HttpResponseNotFound)
  ∧ LoanedBooksListView request page_invalid db = HttpResponseNotFound
  ∧ LoanedBooksListView request page_missing db
    = LoanedBooksListView request (page_int 1) db
  ∧ LoanedBooksListView request page_last db
    = LoanedBooksListView request (page_int last) db.
Proof.
  intros Hp Hr last.
  pose proof (num_pages_bounds paginate_by (LoanedBooksListView_get_queryset db)
                ltac:(unfold paginate_by; lia)) as (H1 & _).
  split; [done|]. split; [|split; [|split; [|split]]].
  - intros n Hn. rewrite LoanedBooksListView_read by done.
    rewrite paginate_queryset_inside by done. eauto.
  - intros n Hn. rewrite LoanedBooksListView_read by done.
    by rewrite paginate_queryset_outside by done.
  - by rewrite LoanedBooksListView_read by done.
  - by rewrite !LoanedBooksListView_read by done.
  - by rewrite !LoanedBooksListView_read by done.
Qed.

Lemma all_loans_pages_served_witness :
  let last := num_pages paginate_by (LoanedBooksListView_get_queryset shelf) in
  1 ≤ last
  ∧ (∀ n, 1 ≤ n ≤ last →
       ∃ context,
         LoanedBooksListView (librarian_request "GET" tt) (page_int n) shelf
         = TemplateResponse "catalog/bookinstance_list_borrowed_all.html"
             context)
  ∧ (∀ n, n < 1 ∨ last < n →
       LoanedBooksListView (librarian_request "GET" tt) (page_int n) shelf
       = HttpResponseNotFound)
  ∧ LoanedBooksListView (librarian_request "GET" tt) page_invalid shelf
    = HttpResponseNotFound
  ∧ LoanedBooksListView (librarian_request "GET" tt) page_missing shelf
    = LoanedBooksListView (librarian_request "GET" tt) (page_int 1) shelf
  ∧ LoanedBooksListView (librarian_request "GET" tt) page_last shelf
    = LoanedBooksListView (librarian_request "GET" tt) (page_int last) shelf.
Proof.
  apply (all_loans_pages_served (librarian_request "GET" tt) shelf).
  - reflexivity.
  - left. reflexivity.
Defined.

(** X20. A logged-in reader's listing shows nothing but copies that are
    stored, on loan and borrowed by that reader, and it shows every such
    copy on one of its pages. *)
Theorem own_loans_only {QueryDict} (request : HttpRequest QueryDict)
    (db : Database) (u : User) :
  user request = Some u →
  is_read request →
  (∀ page template_name context pk b,
     LoanedBooksByUserListView request page db
     = TemplateResponse template_name context →
     (pk, b) ∈ object_list context →
     BookInstance_objects db !! pk = Some b
     ∧ status b = OnLoan
     ∧ borrower b = Some (user_pk u))
  ∧ (∀ pk b,
       BookInstance_objects db !! pk = Some b →
       status b = OnLoan →
       borrower b = Some (user_pk u) →
       ∃ n context,
         LoanedBooksByUserListView request (page_int n) db
         = TemplateResponse "catalog/bookinstance_list_borrowed_user.html"
             context
         ∧ (pk, b) ∈ object_list context).
Proof.
  intros Hu Hr. unfold LoanedBooksByUserListView. rewrite Hu.
  set (queryset := LoanedBooksByUserListView_get_queryset db u).
  split.
  - intros page t context pk b Hv Hin.
    rewrite ListView_dispatch_read in Hv by done.
    destruct (paginate_queryset queryset paginate_by page)
      as [c|] eqn:Hc; [|done].
    simplify_eq. apply (elem_of_on_loan_to db u).
    fold queryset. unfold paginate_queryset in Hc.
    apply bind_Some in Hc as (n & _ & Hc).
    apply bind_Some in Hc as (objects & Hpage & Hc). simplify_eq. simpl in Hin.
    unfold Paginator_page, slice in Hpage.
    repeat case_match; simplify_eq;
      eapply subseteq_drop, subseteq_take, Hin.
  - intros pk b Hs Hst Hb.
    assert (Hin : (pk, b) ∈ queryset) by by apply elem_of_on_loan_to.
    apply list_elem_of_lookup in Hin as [i Hi].
    destruct (page_of_position queryset i (pk, b) Hi)
      as (context & Hc & Hrow & _).
    exists (Z.of_nat (i `div` 10) + 1), context.
    rewrite ListView_dispatch_read by done. rewrite Hc. split; [done|].
    by eapply list_elem_of_lookup_2.
Qed.

Lemma own_loans_only_witness :
  (∀ page template_name context pk b,
     LoanedBooksByUserListView
       {| method := "GET"; POST := tt; user := Some (reader 1) |} page shelf
     = TemplateResponse template_name context →
     (pk, b) ∈ object_list context →
     BookInstance_objects shelf !! pk = Some b
     ∧ status b = OnLoan
     ∧ borrower b = Some (user_pk (reader 1)))
  ∧ (∀ pk b,
       BookInstance_objects shelf !! pk = Some b →
       status b = OnLoan →
       borrower b = Some (user_pk (reader 1)) →
       ∃ n context,
         LoanedBooksByUserListView
           {| method := "GET"; POST := tt; user := Some (reader 1) |}
           (page_int n) shelf
         = TemplateResponse "catalog/bookinstance_list_borrowed_user.html"
             context
         ∧ (pk, b) ∈ object_list context).
Proof.
  apply (own_loans_only
           {| method := "GET"; POST := tt; user := Some (reader 1) |}
           shelf (reader 1)).
  - reflexivity.
  - left. reflexivity.
Defined.

(** * The title lookup of the landing view *)

Lemma prefix_iff_append (p s : string) :
  String.prefix p s = true ↔ ∃ b, s = p +:+ b.
Proof.
  revert s. induction p as [|c p IH]; intros [|c' s]; simpl.
  - split; [intros _; by exists ""|done].
  - split; [intros _; by exists (String c' s)|done].
  - split; [done|intros [b ?]; done].
  - destruct (Ascii.ascii_dec c c') as [->|Hne].
    + rewrite IH. split; intros [b Hb]; exists b; [by rewrite Hb|].
      change (String c' s = String c' (p +:+ b)) in Hb. by simplify_eq.
    + split; [done|]. intros [b Hb].
      change (String c' s = String c (p +:+ b)) in Hb. by simplify_eq.
Qed.

Lemma index_is_Some_iff (p s : string) :
  is_Some (String.index 0 p s) ↔ ∃ a b, s = a +:+ p +:+ b.
Proof.
  induction s as [|c s IH].
  - destruct p as [|c' p]; simpl.
    + split; [intros _; by exists "", ""|intros _; by eexists].
    + split; [by intros [? ?]|]. intros (a & b & Hs).
      destruct a; cbv in Hs; done.
  - change (String.index 0 p (String c s))
      with (if String.prefix p (String c s) then Some 0%nat
            else match String.index 0 p s with
                 | Some n => Some (S n)
                 | None => None
                 end).
    destruct (String.prefix p (String c s)) eqn:Hpre.
    + split; [|intros _; by eexists]. intros _.
      apply prefix_iff_append in Hpre as [b Hb]. by exists "", b.
    + split.
      * intros Hsome.
        destruct (String.index 0 p s) as [n|] eqn:Hn; [|by destruct Hsome].
        destruct IH as [IH _].
        destruct (IH ltac:(by eexists)) as (a & b & ->).
        by exists (String c a), b.
      * intros ([|c' a] & b & Hs).
        -- change (String c s = p +:+ b) in Hs.
           assert (String.prefix p (String c s) = true) as Hp
             by (apply prefix_iff_append; eauto).
           congruence.
        -- change (String c s = String c' (a +:+ p +:+ b)) in Hs. simplify_eq.
           destruct IH as [_ IH].
           destruct (IH ltac:(eauto)) as [n ->]. by eexists.
Qed.

(** X21. The title lookup of the landing page, [title__icontains], matches
    exactly the values in which the pattern occurs once the ASCII letters of
    both are put in lower case. *)
Theorem icontains_spec (value pattern : string) :
  icontains value pattern = true
  ↔ ∃ before after, lower value = before +:+ lower pattern +:+ after.
Proof.
  unfold icontains. rewrite <-index_is_Some_iff.
  destruct (String.index 0 (lower pattern) (lower value)).
  - split; [by eauto|done].
  - split; [done|by intros [? ?]].
Qed.
